(** * SAP OData write sequence: CSRF token, ETag read, conditional PATCH

    A shallow embedding of [WorkingSAPService] as it appears in
    [lab-03b-working-sap-agent.py] and, with the same method bodies apart
    from console output, in [metadata-driven-sap-agent.py]:
    [get_headers], [get_csrf_token], [test_connection], [read_sales_order]
    and [remove_delivery_block].

    Conventions of the embedding.
    - A Python [str] is a Rocq [string] holding the UTF-8 encoding of the
      text; [bytes] are a Rocq [string] too.  Concatenation, [replace] of an
      ASCII pattern and [split] at an ASCII separator act on the encoding
      exactly as they act on the text.
    - A value that may be [None] is an [option]; Python truthiness of such a
      value is [truthy].
    - A raised exception is carried by [str(e)], the only thing the source
      ever reads from it.
    - [print] has no effect on the service or on the requests it sends and is
      left out. *)

From Stdlib Require Import ZArith NArith Ascii String List Lia Bool.
From stdpp Require Import base option gmap strings list pretty.

Open Scope string_scope.

(** ** Strings *)

Module PyStr.

Definition of_bytes (l : list N) : string :=
  fold_right (fun b s => String (ascii_of_N b) s) EmptyString l.

Definition dquote : string := of_bytes [34%N].

(** [bool(s)] for [s : Optional[str]]: [None] and [''] are false. *)
Definition truthy (v : option string) : bool :=
  match v with
  | Some (String _ _) => true
  | _ => false
  end.

(** [x or y] on [Optional[str]] values. *)
Definition py_or (x y : option string) : option string :=
  if truthy x then x else y.

Fixpoint starts_with (p s : string) : bool :=
  match p, s with
  | EmptyString, _ => true
  | String a p', String b s' => Ascii.eqb a b && starts_with p' s'
  | String _ _, EmptyString => false
  end.

(** [s.replace(old, new)] for a non-empty [old]: scan from the left; at an
    occurrence of [old] emit [new] and skip the occurrence ([skip] counts the
    characters of it still to pass over), otherwise keep the character. *)
Fixpoint replace_from (old new : string) (skip : nat) (s : string) : string :=
  match s with
  | EmptyString => EmptyString
  | String c r =>
      match skip with
      | S k => replace_from old new k r
      | O =>
          if starts_with old s
          then new +:+ replace_from old new (String.length old - 1) r
          else String c (replace_from old new 0 r)
      end
  end.

Definition replace (old new s : string) : string := replace_from old new 0 s.

(** The characters for which [str.isspace] holds, UTF-8 encoded:
    U+0009..U+000D, U+001C..U+0020, U+0085, U+00A0, U+1680, U+2000..U+200A,
    U+2028, U+2029, U+202F, U+205F, U+3000. *)
Definition whitespace : list string :=
  map of_bytes
    [ [9]; [10]; [11]; [12]; [13]; [28]; [29]; [30]; [31]; [32];
      [194; 133]; [194; 160]; [225; 154; 128];
      [226; 128; 128]; [226; 128; 129]; [226; 128; 130]; [226; 128; 131];
      [226; 128; 132]; [226; 128; 133]; [226; 128; 134]; [226; 128; 135];
      [226; 128; 136]; [226; 128; 137]; [226; 128; 138];
      [226; 128; 168]; [226; 128; 169]; [226; 128; 175];
      [226; 129; 159]; [227; 128; 128] ]%N.

(** Length in bytes of the whitespace character [s] begins with, [0] when it
    begins with none. *)
Definition space_width (s : string) : nat :=
  match List.find (fun w => starts_with w s) whitespace with
  | Some w => String.length w
  | None => 0
  end.

Fixpoint lstrip_from (skip : nat) (s : string) : string :=
  match s with
  | EmptyString => EmptyString
  | String _ r =>
      match skip with
      | S k => lstrip_from k r
      | O =>
          match space_width s with
          | S k => lstrip_from k r
          | O => s
          end
      end
  end.

Definition lstrip (s : string) : string := lstrip_from 0 s.

Definition isspace_all (s : string) : bool :=
  match lstrip s with
  | EmptyString => true
  | String _ _ => false
  end.

Fixpoint rstrip (s : string) : string :=
  match s with
  | EmptyString => EmptyString
  | String c r => if isspace_all s then EmptyString else String c (rstrip r)
  end.

(** [s.strip()]. *)
Definition strip (s : string) : string := rstrip (lstrip s).

(** [s.split(sep)[0]] for a one-character [sep]. *)
Fixpoint split_head (sep : ascii) (s : string) : string :=
  match s with
  | EmptyString => EmptyString
  | String c r => if Ascii.eqb c sep then EmptyString else String c (split_head sep r)
  end.

(** [sep.join(l)]. *)
Definition join (sep : string) (l : list string) : string := String.concat sep l.

Definition lower_char (c : ascii) : ascii :=
  let n := N_of_ascii c in
  if ((65 <=? n) && (n <=? 90))%N then ascii_of_N (n + 32) else c.

(** [s.lower()] on the ASCII names of header fields. *)
Fixpoint lower (s : string) : string :=
  match s with
  | EmptyString => EmptyString
  | String c r => String (lower_char c) (lower r)
  end.

(** [str(n)] for an [int]. *)
Definition str_int (n : Z) : string := pretty n.

End PyStr.

(** ** Exceptions and [bytes.decode] *)

(** The outcome of an expression that may raise; [Raise msg] carries
    [str(e)]. *)
Inductive exc (A : Type) : Type :=
| Ok (a : A)
| Raise (msg : string).
Arguments Ok {A} a.
Arguments Raise {A} msg.

Module Utf8.

Definition between (lo hi : N) (c : ascii) : bool :=
  ((lo <=? N_of_ascii c) && (N_of_ascii c <=? hi))%N.

Definition cont (c : ascii) : bool := between 128 191 c.

(** Second byte of a three-byte sequence led by [a]: no overlong forms, no
    surrogates. *)
Definition second_of_3 (a b : ascii) : bool :=
  if (N_of_ascii a =? 224)%N then between 160 191 b
  else if (N_of_ascii a =? 237)%N then between 128 159 b
  else cont b.

(** Second byte of a four-byte sequence led by [a]: no overlong forms,
    nothing above U+10FFFF. *)
Definition second_of_4 (a b : ascii) : bool :=
  if (N_of_ascii a =? 240)%N then between 144 191 b
  else if (N_of_ascii a =? 244)%N then between 128 143 b
  else cont b.

(** Well-formed UTF-8, as the strict decoder accepts it. *)
Fixpoint valid (s : string) : bool :=
  match s with
  | EmptyString => true
  | String a r =>
      if (N_of_ascii a <? 128)%N then valid r
      else if between 194 223 a then
        match r with
        | String b r1 => cont b && valid r1
        | _ => false
        end
      else if between 224 239 a then
        match r with
        | String b (String c r2) => second_of_3 a b && cont c && valid r2
        | _ => false
        end
      else if between 240 244 a then
        match r with
        | String b (String c (String d r3)) =>
            second_of_4 a b && cont c && cont d && valid r3
        | _ => false
        end
      else false
  end.

End Utf8.

(** ** HTTP messages *)

Inductive Method : Type := GET | PATCH.

#[global] Instance Method_eq_dec : EqDecision Method.
Proof. solve_decision. Defined.

(** A request as handed to [PoolManager.request]: the headers are the plain
    [dict] built by [get_headers], whose values are [str] or [None]. *)
Record Request : Type := mkRequest {
  method : Method;
  url : string;
  body : option string;
  req_headers : gmap string (option string)
}.

(** urllib3's [HTTPHeaderDict]: the header fields in the order received, a
    field name possibly repeated; lookups ignore the case of the name. *)
Definition HTTPHeaderDict : Type := list (string * string).

Module Headers.

Definition same_name (key name : string) : bool :=
  String.eqb (PyStr.lower name) (PyStr.lower key).

(** [headers.get_all(key)] (alias of [getlist]): the values of every field
    named [key], the empty list when there is none. *)
Fixpoint get_all (key : string) (h : HTTPHeaderDict) : list string :=
  match h with
  | [] => []
  | (name, v) :: h' =>
      if same_name key name then v :: get_all key h' else get_all key h'
  end.

(** [headers.get(key)]: the values of the fields named [key] joined by
    [', '], [None] when there is none. *)
Definition get (key : string) (h : HTTPHeaderDict) : option string :=
  match get_all key h with
  | [] => None
  | vs => Some (PyStr.join ", " vs)
  end.

End Headers.

Record Response : Type := mkResponse {
  status : Z;
  headers : HTTPHeaderDict;
  data : string
}.

(** One call of [self.http.request]: what was sent and what came back. *)
Definition Event : Type := (Request * exc Response)%type.

(** ** The service object and its environment *)

Record SAPConfig : Type := mkSAPConfig {
  base_url : string;
  username : string;
  password : string;
  verify_ssl : bool
}.

(** [self] of [WorkingSAPService]; [self.http] is the environment below. *)
Record Service : Type := mkService {
  config : SAPConfig;
  csrf_token : option string;
  cookies : option string
}.

(** [WorkingSAPService.__init__]. *)
Definition init (cfg : SAPConfig) : Service :=
  {| config := cfg; csrf_token := None; cookies := None |}.

(** What the source takes from its libraries and from the network.
    - [http_request]: [self.http.request(...)] against a remote system in
      state [w]; it answers or raises, and the remote system moves on.
    - [basic_auth]: [urllib3.make_headers(basic_auth=s)['authorization']],
      which raises when [s] cannot be encoded.
    - [decode_error]: [str(e)] of the [UnicodeDecodeError] raised for bytes
      that are not well-formed UTF-8.
    - [json_loads], [json_get_d]: [json.loads(text)] and [data.get('d', {})]. *)
Class Platform : Type := {
  World : Type;
  http_request : World -> Request -> exc Response * World;
  basic_auth : string -> exc string;
  decode_error : string -> string;
  Json : Type;
  json_loads : string -> exc Json;
  json_get_d : Json -> exc Json
}.

(** ** Method bodies as state-passing computations *)

Section Service.
Context `{P : Platform}.

(** The service object together with the remote system it talks to. *)
Record Sys : Type := mkSys {
  self : Service;
  world : World
}.

(** The result of running a piece of code: its value or exception, the state
    it leaves and the HTTP calls it made, in order. *)
Record Run (A : Type) : Type := mkRun {
  value : exc A;
  final : Sys;
  trace : list Event
}.
Arguments mkRun {A} value final trace.
Arguments value {A} r.
Arguments final {A} r.
Arguments trace {A} r.

Definition M (A : Type) : Type := Sys -> Run A.

Definition ret {A} (a : A) : M A :=
  fun s => mkRun (Ok a) s [].

Definition raise {A} (msg : string) : M A :=
  fun s => mkRun (Raise msg) s [].

Definition bind {A B} (m : M A) (k : A -> M B) : M B :=
  fun s =>
    let r := m s in
    match value r with
    | Ok a =>
        let r' := k a (final r) in
        mkRun (value r') (final r') (trace r ++ trace r')
    | Raise msg => mkRun (Raise msg) (final r) (trace r)
    end.

(** [try: m  except Exception as e: h(str(e))]: what [m] did before raising
    stays done. *)
Definition try_except {A} (m : M A) (h : string -> M A) : M A :=
  fun s =>
    let r := m s in
    match value r with
    | Ok a => r
    | Raise msg =>
        let r' := h msg (final r) in
        mkRun (value r') (final r') (trace r ++ trace r')
    end.

Definition lift {A} (e : exc A) : M A :=
  fun s => mkRun e s [].

Definition get_self : M Service :=
  fun s => mkRun (Ok (self s)) s [].

(** [self.csrf_token = v]. *)
Definition set_csrf_token (v : option string) : M unit :=
  fun s =>
    let o := self s in
    mkRun (Ok tt)
      (mkSys {| config := config o; csrf_token := v; cookies := cookies o |}
         (world s))
      [].

(** [self.cookies = v]. *)
Definition set_cookies (v : option string) : M unit :=
  fun s =>
    let o := self s in
    mkRun (Ok tt)
      (mkSys {| config := config o; csrf_token := csrf_token o; cookies := v |}
         (world s))
      [].

(** [self.http.request(method, url, body=body, headers=headers)]. *)
Definition request (m : Method) (u : string) (b : option string)
    (h : gmap string (option string)) : M Response :=
  fun s =>
    let rq := mkRequest m u b h in
    let (out, w) := http_request (world s) rq in
    mkRun out (mkSys (self s) w) [(rq, out)].

(** [b.decode('utf-8')]. *)
Definition decode (b : string) : exc string :=
  if Utf8.valid b then Ok b else Raise (decode_error b).

End Service.

Arguments mkRun {P A} value final trace.
Arguments value {P A} r.
Arguments final {P A} r.
Arguments trace {P A} r.

Notation "x <- m ;; k" := (bind m (fun x => k))
  (at level 100, m at next level, right associativity, only parsing).
Notation "m ;;; k" := (bind m (fun _ => k))
  (at level 100, right associativity, only parsing).

(** ** Results handed back to the tool layer *)

(** The [dict] returned by [remove_delivery_block]:
    [{'success': True, 'message': m, 'reason': r}] or
    [{'success': False, 'error': e}]. *)
Inductive UpdateResult : Type :=
| Removed (message reason : string)
| Failed (error : string).

(** The failure classes of the write sequence, by the [error] text the
    source produces for each. *)
Definition TokenError : UpdateResult := Failed "Failed to get CSRF token".

Definition NotFoundError (st : Z) : UpdateResult :=
  Failed ("Failed to get order for ETag: " +:+ PyStr.str_int st).

Definition WriteRejected (st : Z) (text : string) : UpdateResult :=
  Failed ("Update failed: " +:+ PyStr.str_int st +:+ " - " +:+ text).

(** The [dict] returned by [read_sales_order]:
    [{'success': True, 'order_data': d}] or [{'success': False, 'error': e}]. *)
Inductive ReadResult `{P : Platform} : Type :=
| OrderData (order_data : Json)
| ReadFailed (error : string).

Module PyJson.

(** [json.dumps] of a flat [dict] of strings whose characters need no
    escape, as is the update payload. *)
Definition dumps (d : list (string * string)) : string :=
  "{" +:+
  PyStr.join ", "
    (map (fun kv => PyStr.dquote +:+ fst kv +:+ PyStr.dquote +:+ ": " +:+
                    PyStr.dquote +:+ snd kv +:+ PyStr.dquote) d)
  +:+ "}".

End PyJson.

Section Methods.
Context `{P : Platform}.

Definition service_root : string := "/sap/opu/odata/sap/API_SALES_ORDER_SRV/".

(** [f"{base_url}/sap/opu/odata/sap/API_SALES_ORDER_SRV/A_SalesOrder('{key}')"]. *)
Definition order_url (cfg : SAPConfig) (key : string) : string :=
  base_url cfg +:+ service_root +:+ "A_SalesOrder('" +:+ key +:+ "')".

(** [str(order_id).replace('SO', '').strip()]. *)
Definition clean_order_id (order_id : string) : string :=
  PyStr.strip (PyStr.replace "SO" "" order_id).

Definition get_headers (include_csrf : bool) : M (gmap string (option string)) :=
  o <- get_self ;;
  auth <- lift (basic_auth (username (config o) +:+ ":" +:+ password (config o))) ;;
  let hdrs : gmap string (option string) := {[ "authorization" := Some auth ]} in
  let hdrs := <[ "Content-Type" := Some "application/json" ]> hdrs in
  let hdrs := <[ "Accept" := Some "application/json" ]> hdrs in
  if include_csrf && PyStr.truthy (csrf_token o)
  then
    let hdrs := <[ "x-csrf-token" := csrf_token o ]> hdrs in
    let hdrs := <[ "Cookie" := cookies o ]> hdrs in
    ret hdrs
  else ret hdrs.

Definition get_csrf_token : M bool :=
  try_except
    (hdrs <- get_headers false ;;
     let hdrs := <[ "x-csrf-token" := Some "fetch" ]> hdrs in
     o <- get_self ;;
     let url := base_url (config o) +:+ service_root +:+ "?$format=json" in
     response <- request GET url None hdrs ;;
     let csrf_token := Headers.get "x-csrf-token" (headers response) in
     if PyStr.truthy csrf_token
     then
       set_csrf_token csrf_token ;;;
       let cookies := Headers.get_all "Set-Cookie" (headers response) in
       (match cookies with
        | [] => ret tt
        | _ :: _ =>
            set_cookies
              (Some (PyStr.join "; " (map (PyStr.split_head ";") cookies)))
        end) ;;;
       ret true
     else ret false)
    (fun e => ret false).

Definition test_connection : M bool :=
  try_except
    (o <- get_self ;;
     let url := base_url (config o) +:+ service_root +:+ "?$format=json" in
     hdrs <- get_headers false ;;
     response <- request GET url None hdrs ;;
     if (status response =? 200)%Z then ret true else ret false)
    (fun e => ret false).

Definition read_sales_order (order_id : string) : M ReadResult :=
  try_except
    (let clean_order_id := clean_order_id order_id in
     o <- get_self ;;
     let url := order_url (config o) clean_order_id in
     let params := "$expand=to_Item&$format=json" in
     let full_url := url +:+ "?" +:+ params in
     hdrs <- get_headers false ;;
     response <- request GET full_url None hdrs ;;
     if (status response =? 200)%Z
     then
       text <- lift (decode (data response)) ;;
       data <- lift (json_loads text) ;;
       order_data <- lift (json_get_d data) ;;
       ret (OrderData order_data)
     else
       ret (ReadFailed ("Order not found: " +:+ PyStr.str_int (status response))))
    (fun e => ret (ReadFailed e)).

Definition update_data : list (string * string) := [("DeliveryBlockReason", "")].

Definition remove_delivery_block (order_id reason : string) : M UpdateResult :=
  try_except
    (let clean_order_id := clean_order_id order_id in
     (* Step 1: CSRF token *)
     got <- get_csrf_token ;;
     if negb got then ret (Failed "Failed to get CSRF token")
     else
       (* Step 2: current order with ETag *)
       o <- get_self ;;
       let get_url := order_url (config o) clean_order_id +:+ "?$format=json" in
       hdrs <- get_headers false ;;
       etag_response <- request GET get_url None hdrs ;;
       if negb (status etag_response =? 200)%Z
       then
         ret (Failed ("Failed to get order for ETag: "
                      +:+ PyStr.str_int (status etag_response)))
       else
         let h := headers etag_response in
         let etag :=
           PyStr.py_or (Headers.get "ETag" h)
             (PyStr.py_or (Headers.get "etag" h) (Headers.get "Etag" h)) in
         (* Step 3: update *)
         let patch_url := order_url (config o) clean_order_id in
         hdrs <- get_headers true ;;
         let hdrs :=
           if PyStr.truthy etag then <[ "If-Match" := etag ]> hdrs
           else hdrs in
         let encoded_payload := PyJson.dumps update_data in
         response <- request PATCH patch_url (Some encoded_payload) hdrs ;;
         if (status response =? 200)%Z || (status response =? 204)%Z
         then
           ret (Removed ("Delivery block removed from order " +:+ order_id) reason)
         else
           response_text <- lift (decode (data response)) ;;
           ret (Failed ("Update failed: " +:+ PyStr.str_int (status response)
                        +:+ " - " +:+ response_text)))
    (fun e => ret (Failed e)).

End Methods.

(** ** Vocabulary for the statements *)

Section Vocabulary.
Context `{P : Platform}.

Definition credentials (cfg : SAPConfig) : string :=
  username cfg +:+ ":" +:+ password cfg.

(** The dictionary [get_headers()] returns once the credentials encode to
    [auth]. *)
Definition base_headers (auth : string) : gmap string (option string) :=
  <[ "Accept" := Some "application/json" ]>
    (<[ "Content-Type" := Some "application/json" ]>
       {[ "authorization" := Some auth ]}).

(** The dictionary [get_headers(include_csrf=True)] returns for service [o]. *)
Definition write_headers (o : Service) (auth : string) : gmap string (option string) :=
  if PyStr.truthy (csrf_token o)
  then <[ "Cookie" := cookies o ]> (<[ "x-csrf-token" := csrf_token o ]> (base_headers auth))
  else base_headers auth.

(** The token fetch: a GET of the service root asking for a token. *)
Definition token_request (cfg : SAPConfig) (auth : string) : Request :=
  mkRequest GET (base_url cfg +:+ service_root +:+ "?$format=json") None
    (<[ "x-csrf-token" := Some "fetch" ]> (base_headers auth)).

(** The read of the order that precedes its update. *)
Definition etag_request (cfg : SAPConfig) (auth order_id : string) : Request :=
  mkRequest GET (order_url cfg (clean_order_id order_id) +:+ "?$format=json") None
    (base_headers auth).

(** The stamp the update takes from the read response. *)
Definition etag_of (r : Response) : option string :=
  PyStr.py_or (Headers.get "ETag" (headers r))
    (PyStr.py_or (Headers.get "etag" (headers r)) (Headers.get "Etag" (headers r))).

Definition patch_request (o : Service) (auth order_id : string)
    (etag : option string) : Request :=
  mkRequest PATCH (order_url (config o) (clean_order_id order_id))
    (Some (PyJson.dumps update_data))
    (if PyStr.truthy etag then <[ "If-Match" := etag ]> (write_headers o auth)
     else write_headers o auth).

(** The cookie string built from the [Set-Cookie] values of a response. *)
Definition cookie_header (vs : list string) : string :=
  PyStr.join "; " (map (PyStr.split_head ";") vs).

(** The service object after a token response [r] that carries a token. *)
Definition store_token (r : Response) (o : Service) : Service :=
  {| config := config o;
     csrf_token := Headers.get "x-csrf-token" (headers r);
     cookies :=
       match Headers.get_all "Set-Cookie" (headers r) with
       | [] => cookies o
       | _ :: _ => Some (cookie_header (Headers.get_all "Set-Cookie" (headers r)))
       end |}.

(** What the update returns for the response [r] to its PATCH. *)
Definition classify_write (order_id reason : string) (r : Response) : exc UpdateResult :=
  if (status r =? 200)%Z || (status r =? 204)%Z
  then Ok (Removed ("Delivery block removed from order " +:+ order_id) reason)
  else
    match decode (data r) with
    | Ok text => Ok (WriteRejected (status r) text)
    | Raise msg => Ok (Failed msg)
    end.

Definition is_patch (e : Event) : bool :=
  match method (fst e) with
  | PATCH => true
  | GET => false
  end.

(** The PATCH requests among the calls of a run. *)
Definition patches {A} (r : Run A) : list Event := List.filter is_patch (trace r).

(** [s] with the reason of a successful result replaced by [reason]. *)
Definition with_reason (reason : string) (v : exc UpdateResult) : exc UpdateResult :=
  match v with
  | Ok (Removed m _) => Ok (Removed m reason)
  | _ => v
  end.

End Vocabulary.

(** The [Cookie] value as the specification words it: the distinct cookies,
    attributes stripped, joined by [; ]. *)
Definition distinct_cookie_header (vs : list string) : string :=
  PyStr.join "; " (remove_dups (map (PyStr.split_head ";") vs)).

(** The spellings of the stamp header the update looks up. *)
Definition etag_spellings : list string := ["ETag"; "etag"; "Etag"].

(** ** A scripted remote system *)

Module Scripted.

(** The remote system answers the calls it receives with the outcomes of a
    script, in order, and refuses connections once the script is used up. *)
Definition step (w : list (exc Response)) (rq : Request)
    : exc Response * list (exc Response) :=
  match w with
  | [] => (Raise "connection refused", [])
  | o :: w' => (o, w')
  end.

#[global] Instance platform : Platform := {|
  World := list (exc Response);
  http_request := step;
  basic_auth := fun s => Ok ("Basic " +:+ s);
  decode_error := fun b => "'utf-8' codec can't decode byte 0xff in position 0: invalid start byte";
  Json := string;
  json_loads := Ok;
  json_get_d := Ok
|}.

Definition cfg : SAPConfig :=
  {| base_url := "https://sap.example:8443"; username := "ACCAPI";
     password := "secret"; verify_ssl := false |}.

Definition fresh (script : list (exc Response)) : Sys := mkSys (init cfg) script.

Definition token_ok : Response :=
  mkResponse 200
    [("x-csrf-token", "T0k3n"); ("Set-Cookie", "a=1; Path=/");
     ("Set-Cookie", "b=2; HttpOnly")] "".

Definition token_403_with_token : Response :=
  mkResponse 403 [("X-CSRF-Token", "T0k3n")] "".

Definition token_denied : Response := mkResponse 403 [] "".

Definition token_empty : Response := mkResponse 200 [("x-csrf-token", "")] "".

Definition token_twice : Response :=
  mkResponse 200
    [("x-csrf-token", "T0k3n"); ("Set-Cookie", "a=1; Path=/");
     ("Set-Cookie", "a=1; Path=/")] "".

Definition read_stamped : Response :=
  mkResponse 200 [("etag", "W/abc123")] "{}".


Definition read_empty_stamp : Response := mkResponse 200 [("ETag", "")] "{}".

Definition read_404 : Response := mkResponse 404 [("ETag", "W/abc123")] "".

Definition patch_204 : Response := mkResponse 204 [] "".

Definition patch_403 : Response := mkResponse 403 [] "token expired".

Definition patch_412 : Response := mkResponse 412 [] "precondition failed".

Definition patch_412_latin1 : Response := mkResponse 412 [] (PyStr.of_bytes [255%N]).

End Scripted.

(** ** The runs of the methods, case by case *)

Section Cases.
Context `{P : Platform}.

(** [r] with the calls [t] made before it. *)
Definition prepend {A} (t : list Event) (r : Run A) : Run A :=
  mkRun (value r) (final r) (t ++ trace r).

(** The read issued by [read_sales_order]. *)
Definition read_request (cfg : SAPConfig) (auth order_id : string) : Request :=
  mkRequest GET
    (order_url cfg (clean_order_id order_id) +:+ "?" +:+ "$expand=to_Item&$format=json")
    None (base_headers auth).

(** What [read_sales_order] returns for the response [r] to its read. *)
Definition classify_read (r : Response) : ReadResult :=
  if (status r =? 200)%Z
  then
    match decode (data r) with
    | Raise msg => ReadFailed msg
    | Ok text =>
        match json_loads text with
        | Raise msg => ReadFailed msg
        | Ok d =>
            match json_get_d d with
            | Raise msg => ReadFailed msg
            | Ok order_data => OrderData order_data
            end
        end
    end
  else ReadFailed ("Order not found: " +:+ PyStr.str_int (status r)).

(** The token fetch from state [s] is answered by [r1], which carries a
    token, and leaves the remote system in [w1]. *)
Definition token_hit (s : Sys) (auth : string) (r1 : Response) (w1 : World) : Prop :=
  basic_auth (credentials (config (self s))) = Ok auth /\
  http_request (world s) (token_request (config (self s)) auth) = (Ok r1, w1) /\
  PyStr.truthy (Headers.get "x-csrf-token" (headers r1)) = true.

(** The ways [get_csrf_token] can run from [s]. *)
Inductive token_run (s : Sys) : Run bool -> Prop :=
| token_no_credentials msg :
    basic_auth (credentials (config (self s))) = Raise msg ->
    token_run s (mkRun (Ok false) s [])
| token_transport auth msg w :
    basic_auth (credentials (config (self s))) = Ok auth ->
    http_request (world s) (token_request (config (self s)) auth) = (Raise msg, w) ->
    token_run s
      (mkRun (Ok false) (mkSys (self s) w)
         [(token_request (config (self s)) auth, Raise msg)])
| token_missing auth r w :
    basic_auth (credentials (config (self s))) = Ok auth ->
    http_request (world s) (token_request (config (self s)) auth) = (Ok r, w) ->
    PyStr.truthy (Headers.get "x-csrf-token" (headers r)) = false ->
    token_run s
      (mkRun (Ok false) (mkSys (self s) w)
         [(token_request (config (self s)) auth, Ok r)])
| token_stored auth r w :
    token_hit s auth r w ->
    token_run s
      (mkRun (Ok true) (mkSys (store_token r (self s)) w)
         [(token_request (config (self s)) auth, Ok r)]).

(** The ways [remove_delivery_block order_id reason] can run from [s]. *)
Inductive update_run (order_id reason : string) (s : Sys) : Run UpdateResult -> Prop :=
| update_no_token t :
    token_run s t -> value t = Ok false ->
    update_run order_id reason s (mkRun (Ok TokenError) (final t) (trace t))
| update_read_raised auth r1 w1 msg w2 :
    token_hit s auth r1 w1 ->
    http_request w1 (etag_request (config (self s)) auth order_id) = (Raise msg, w2) ->
    update_run order_id reason s
      (mkRun (Ok (Failed msg)) (mkSys (store_token r1 (self s)) w2)
         [ (token_request (config (self s)) auth, Ok r1);
           (etag_request (config (self s)) auth order_id, Raise msg) ])
| update_not_found auth r1 w1 r2 w2 :
    token_hit s auth r1 w1 ->
    http_request w1 (etag_request (config (self s)) auth order_id) = (Ok r2, w2) ->
    status r2 <> 200%Z ->
    update_run order_id reason s
      (mkRun (Ok (NotFoundError (status r2))) (mkSys (store_token r1 (self s)) w2)
         [ (token_request (config (self s)) auth, Ok r1);
           (etag_request (config (self s)) auth order_id, Ok r2) ])
| update_patch_raised auth r1 w1 r2 w2 msg w3 :
    token_hit s auth r1 w1 ->
    http_request w1 (etag_request (config (self s)) auth order_id) = (Ok r2, w2) ->
    status r2 = 200%Z ->
    http_request w2
      (patch_request (store_token r1 (self s)) auth order_id (etag_of r2))
      = (Raise msg, w3) ->
    update_run order_id reason s
      (mkRun (Ok (Failed msg)) (mkSys (store_token r1 (self s)) w3)
         [ (token_request (config (self s)) auth, Ok r1);
           (etag_request (config (self s)) auth order_id, Ok r2);
           (patch_request (store_token r1 (self s)) auth order_id (etag_of r2),
            Raise msg) ])
| update_patched auth r1 w1 r2 w2 r3 w3 :
    token_hit s auth r1 w1 ->
    http_request w1 (etag_request (config (self s)) auth order_id) = (Ok r2, w2) ->
    status r2 = 200%Z ->
    http_request w2
      (patch_request (store_token r1 (self s)) auth order_id (etag_of r2))
      = (Ok r3, w3) ->
    update_run order_id reason s
      (mkRun (classify_write order_id reason r3) (mkSys (store_token r1 (self s)) w3)
         [ (token_request (config (self s)) auth, Ok r1);
           (etag_request (config (self s)) auth order_id, Ok r2);
           (patch_request (store_token r1 (self s)) auth order_id (etag_of r2),
            Ok r3) ]).

End Cases.

(** ** Scenarios on the scripted system *)

Module Scenario.
Import Scripted.

Definition happy : Sys := fresh [Ok token_ok; Ok read_stamped; Ok patch_204].
Definition empty_stamp : Sys := fresh [Ok token_ok; Ok read_empty_stamp; Ok patch_204].
Definition denied : Sys := fresh [Ok token_denied].
Definition empty_token : Sys := fresh [Ok token_empty].
Definition forbidden_with_token : Sys :=
  fresh [Ok token_403_with_token; Ok read_stamped; Ok patch_204].
Definition repeated_cookie : Sys := fresh [Ok token_twice].
Definition not_found : Sys := fresh [Ok token_ok; Ok read_404].
Definition stale : Sys := fresh [Ok token_ok; Ok read_stamped; Ok patch_412].
Definition expired : Sys := fresh [Ok token_ok; Ok read_stamped; Ok patch_403].
Definition undecodable : Sys :=
  fresh [Ok token_ok; Ok read_stamped; Ok patch_412_latin1].

(** A service object that already holds a token and cookies. *)
Definition cached : Service :=
  {| config := cfg; csrf_token := Some "old"; cookies := Some "c=3" |}.
Definition denied_with_cache : Sys := mkSys cached [Ok token_denied].

End Scenario.
(** ** More of the service: generic queries ([metadata-driven-sap-agent.py]) *)

Module PyList.

(** [s.split(sep)] for a one-character [sep]: the pieces between the
    separators, at least one piece. *)
Fixpoint split (sep : ascii) (s : string) : list string :=
  match s with
  | EmptyString => [EmptyString]
  | String c r =>
      if Ascii.eqb c sep then EmptyString :: split sep r
      else
        match split sep r with
        | p :: ps => String c p :: ps
        | [] => [String c EmptyString]
        end
  end.

(** [bool(l)] for [l : Optional[List]]: [None] and [[]] are false. *)
Definition truthy {A} (l : option (list A)) : bool :=
  match l with
  | Some (_ :: _) => true
  | _ => false
  end.

End PyList.

(** The [dict] returned by [execute_odata_query]:
    [{'success': True, 'data': d}] or [{'success': False, 'error': e}]. *)
Inductive QueryResult `{P : Platform} : Type :=
| QueryData (data : Json)
| QueryFailed (error : string).

Section Queries.
Context `{P : Platform}.

(** [json.dumps(value, indent=2)] on a value that [json.loads] produced. *)
Variable json_dumps_indent : Json -> string.

(** The URL [execute_odata_query] builds, query string included. *)
Definition query_url (cfg : SAPConfig) (entity_set : string)
    (key_value : option string) (expand select : option (list string)) : string :=
  let url :=
    if PyStr.truthy key_value
    then base_url cfg +:+ service_root +:+ entity_set +:+ "('"
         +:+ default EmptyString key_value +:+ "')"
    else base_url cfg +:+ service_root +:+ entity_set in
  let params : list string := [] in
  let params :=
    if PyList.truthy expand
    then (params ++ ["$expand=" +:+ PyStr.join "," (default [] expand)])%list
    else params in
  let params :=
    if PyList.truthy select
    then (params ++ ["$select=" +:+ PyStr.join "," (default [] select)])%list
    else params in
  let params := (params ++ ["$format=json"])%list in
  match params with
  | [] => url
  | _ :: _ => url +:+ "?" +:+ PyStr.join "&" params
  end.

Definition execute_odata_query (entity_set : string) (key_value : option string)
    (expand select : option (list string)) : M QueryResult :=
  try_except
    (o <- get_self ;;
     let url := query_url (config o) entity_set key_value expand select in
     hdrs <- get_headers false ;;
     response <- request GET url None hdrs ;;
     if (status response =? 200)%Z
     then
       text <- lift (decode (data response)) ;;
       data <- lift (json_loads text) ;;
       d <- lift (json_get_d data) ;;
       ret (QueryData d)
     else
       ret (QueryFailed ("Query failed: " +:+ PyStr.str_int (status response))))
    (fun e => ret (QueryFailed e)).



(** The request [execute_odata_query] sends once the credentials encode to
    [auth]. *)
Definition query_request (cfg : SAPConfig) (auth entity_set : string)
    (key_value : option string) (expand select : option (list string)) : Request :=
  mkRequest GET (query_url cfg entity_set key_value expand select) None
    (base_headers auth).

(** What [execute_odata_query] returns for the response [r]. *)
Definition classify_query (r : Response) : QueryResult :=
  if (status r =? 200)%Z
  then
    match decode (data r) with
    | Raise msg => QueryFailed msg
    | Ok text =>
        match json_loads text with
        | Raise msg => QueryFailed msg
        | Ok d =>
            match json_get_d d with
            | Raise msg => QueryFailed msg
            | Ok data => QueryData data
            end
        end
    end
  else QueryFailed ("Query failed: " +:+ PyStr.str_int (status r)).

End Queries.

(** ** Plain reads with query parameters
    ([sap_strands_intelligent_20251026_225950.py]) *)

Module Base64.

Definition alphabet : string :=
  "ABCDEFGHIJKLMNOPQRSTUVWXYZabcdefghijklmnopqrstuvwxyz0123456789+/".

Definition digit (n : N) : ascii :=
  match String.get (N.to_nat n) alphabet with
  | Some c => c
  | None => "="%char
  end.

(** [base64.b64encode] on the bytes [l]. *)
Fixpoint encode_bytes (l : list N) : string :=
  match l with
  | [] => EmptyString
  | [a] =>
      String (digit (a / 4)) (String (digit ((a mod 4) * 16)) "==")
  | [a; b] =>
      String (digit (a / 4))
        (String (digit ((a mod 4) * 16 + b / 16))
           (String (digit ((b mod 16) * 4)) "="))
  | a :: b :: c :: r =>
      String (digit (a / 4))
        (String (digit ((a mod 4) * 16 + b / 16))
           (String (digit ((b mod 16) * 4 + c / 64))
              (String (digit (c mod 64)) (encode_bytes r))))
  end%N.

Definition b64encode (s : string) : string :=
  encode_bytes (map N_of_ascii (list_ascii_of_string s)).

End Base64.

Module Intelligent.

(** The module constant [SAP_CONFIG] of the memory-enhanced agent. *)
Definition base_url : string :=
  "https://vhcals4hci.awspoc.club/sap/opu/odata/sap/API_SALES_ORDER_SRV/".
Definition username : string := "gyanmis".
Definition password : string := "Pass2025$".
Definition client : string := "100".

(** What [make_sap_request] returns: the value [json.loads] gave, or the
    dictionary [{"error": text}]. *)
Inductive SapResult `{P : Platform} : Type :=
| Parsed (value : Json)
| ErrorDict (error : string).

Section Requests.
Context `{P : Platform}.

(** The credentials above are ASCII, so [encode('ascii')] and
    [decode('ascii')] leave the bytes as they are. *)
Definition auth_b64 : string := Base64.b64encode (username +:+ ":" +:+ password).

(** The loop over [params.items()]: a parameter is kept when its value is
    not empty. *)
Definition query_parts (params : option (list (string * string))) : list string :=
  match params with
  | Some ((_ :: _) as items) =>
      fold_left
        (fun query_parts kv =>
           if PyStr.truthy (Some (snd kv))
           then (query_parts ++ ["$" +:+ fst kv +:+ "=" +:+ snd kv])%list
           else query_parts)
        items []
  | _ => []
  end.

Definition request_url (entity_name : string)
    (params : option (list (string * string))) : string :=
  let query_string := PyStr.join "&" (query_parts params) in
  let url := base_url +:+ entity_name in
  if PyStr.truthy (Some query_string) then url +:+ "?" +:+ query_string else url.

Definition request_headers : gmap string (option string) :=
  <[ "sap-client" := Some client ]>
    (<[ "Accept" := Some "application/json" ]>
       {[ "Authorization" := Some ("Basic " +:+ auth_b64) ]}).

Definition make_sap_request (entity_name : string)
    (params : option (list (string * string))) : M SapResult :=
  try_except
    (let url := request_url entity_name params in
     response <- request GET url None request_headers ;;
     if (status response =? 200)%Z
     then
       text <- lift (decode (data response)) ;;
       v <- lift (json_loads text) ;;
       ret (Parsed v)
     else
       text <- lift (decode (data response)) ;;
       ret (ErrorDict ("HTTP " +:+ PyStr.str_int (status response) +:+ ": " +:+ text)))
    (fun e => ret (ErrorDict ("Request failed: " +:+ e))).

End Requests.

End Intelligent.


(** ** Metadata discovery ([SAPMetadataParser]) *)

Module Metadata.

(** An [xml.etree.ElementTree.Element]: its tag, with the namespace in
    braces, its attributes and its child elements in document order. *)
Inductive Element : Type :=
| Elem (tag : string) (attrib : list (string * string)) (children : list Element).

Definition tag (e : Element) : string := match e with Elem t _ _ => t end.
Definition attrib (e : Element) : list (string * string) :=
  match e with Elem _ a _ => a end.
Definition children (e : Element) : list Element :=
  match e with Elem _ _ c => c end.

Fixpoint lookup_attr (key : string) (l : list (string * string)) : option string :=
  match l with
  | [] => None
  | (k, v) :: l' => if String.eqb k key then Some v else lookup_attr key l'
  end.

(** [element.get(key)]: the attribute, [None] when it is missing. *)
Definition get (key : string) (e : Element) : option string :=
  lookup_attr key (attrib e).

(** The namespace bound to the prefix [edm]. *)
Definition edm : string := "http://schemas.microsoft.com/ado/2008/09/edm".

Definition qname (name : string) : string := "{" +:+ edm +:+ "}" +:+ name.

Definition is_named (name : string) (e : Element) : bool :=
  String.eqb (tag e) (qname name).

(** [element.findall('edm:name', namespaces)]: the children with that tag. *)
Definition findall (name : string) (e : Element) : list Element :=
  List.filter (is_named name) (children e).

(** [element.find('.//edm:name', namespaces)]: the first element with that
    tag below [e], in document order. *)
Fixpoint find_descendant (name : string) (e : Element) : option Element :=
  match e with
  | Elem _ _ cs =>
      (fix first_in (l : list Element) : option Element :=
         match l with
         | [] => None
         | c :: l' =>
             if is_named name c then Some c
             else
               match find_descendant name c with
               | Some d => Some d
               | None => first_in l'
               end
         end) cs
  end.

(** [{'name': ..., 'type': ...}] *)
Record PropertyInfo : Type := mkProperty {
  prop_name : option string;
  prop_type : option string
}.

(** [{'name': ..., 'relationship': ..., 'to_role': ...}] *)
Record NavigationInfo : Type := mkNavigation {
  nav_name : option string;
  nav_relationship : option string;
  nav_to_role : option string
}.

(** [{'properties': [...], 'navigation_properties': [...]}] *)
Record EntityInfo : Type := mkEntity {
  properties : list PropertyInfo;
  navigation_properties : list NavigationInfo
}.

(** [{'from_entity': ..., 'nav_property': ..., 'relationship': ...,
    'to_role': ...}] *)
Record NavigationEntry : Type := mkEntry {
  from_entity : option string;
  nav_property : option string;
  relationship : option string;
  to_role : option string
}.

(** [{'role': ..., 'entity_type': ..., 'multiplicity': ...}] *)
Record AssociationEnd : Type := mkEnd {
  role : option string;
  entity_type : option string;
  multiplicity : option string
}.

(** [{'ends': [...]}] *)
Record AssociationInfo : Type := mkAssociation {
  ends : list AssociationEnd
}.

(** The tables of a [SAPMetadataParser]; [nav_lookup] is its attribute
    [navigation_properties].  A name is an attribute value and so may be
    [None]. *)
Record Parser : Type := mkParser {
  metadata : option string;
  entities : gmap (option string) EntityInfo;
  associations : gmap (option string) AssociationInfo;
  nav_lookup : gmap string NavigationEntry
}.

(** [SAPMetadataParser.__init__]. *)
Definition new_parser : Parser :=
  {| metadata := None; entities := ∅; associations := ∅; nav_lookup := ∅ |}.

(** [f"{v}"] for an attribute value. *)
Definition fmt (v : option string) : string := default "None" v.

(** [f"{entity_name}.{nav_name}"]. *)
Definition nav_key (entity_name nav_name : option string) : string :=
  fmt entity_name +:+ "." +:+ fmt nav_name.

Definition set_entities (f : gmap (option string) EntityInfo ->
                             gmap (option string) EntityInfo) (p : Parser) : Parser :=
  {| metadata := metadata p; entities := f (entities p);
     associations := associations p; nav_lookup := nav_lookup p |}.

Definition set_associations (f : gmap (option string) AssociationInfo ->
                                 gmap (option string) AssociationInfo)
    (p : Parser) : Parser :=
  {| metadata := metadata p; entities := entities p;
     associations := f (associations p); nav_lookup := nav_lookup p |}.

Definition set_nav_lookup (f : gmap string NavigationEntry ->
                               gmap string NavigationEntry) (p : Parser) : Parser :=
  {| metadata := metadata p; entities := entities p;
     associations := associations p; nav_lookup := f (nav_lookup p) |}.

(** [self.entities[entity_name]['properties'].append(info)]. *)
Definition append_property (entity_name : option string) (info : PropertyInfo)
    (p : Parser) : Parser :=
  set_entities
    (alter (fun e => {| properties := properties e ++ [info];
                        navigation_properties := navigation_properties e |})
       entity_name) p.

(** [self.entities[entity_name]['navigation_properties'].append(info)]. *)
Definition append_navigation (entity_name : option string) (info : NavigationInfo)
    (p : Parser) : Parser :=
  set_entities
    (alter (fun e => {| properties := properties e;
                        navigation_properties := navigation_properties e ++ [info] |})
       entity_name) p.

(** The body of the loop over the [NavigationProperty] children. *)
Definition parse_navigation (entity_name : option string) (p : Parser)
    (nav_prop : Element) : Parser :=
  let nav_name := get "Name" nav_prop in
  let relationship := get "Relationship" nav_prop in
  let to_role := get "ToRole" nav_prop in
  let p := append_navigation entity_name
             (mkNavigation nav_name relationship to_role) p in
  set_nav_lookup
    (<[ nav_key entity_name nav_name :=
          mkEntry entity_name nav_name relationship to_role ]>) p.

(** The body of the loop over the [Property] children. *)
Definition parse_property (entity_name : option string) (p : Parser)
    (prop : Element) : Parser :=
  append_property entity_name (mkProperty (get "Name" prop) (get "Type" prop)) p.

(** The body of the loop over the [EntityType] children of the schema. *)
Definition parse_entity_type (p : Parser) (entity_type : Element) : Parser :=
  let entity_name := get "Name" entity_type in
  let p := set_entities (<[ entity_name := mkEntity [] [] ]>) p in
  let p := fold_left (parse_property entity_name) (findall "Property" entity_type) p in
  fold_left (parse_navigation entity_name)
    (findall "NavigationProperty" entity_type) p.

Definition append_end (assoc_name : option string) (info : AssociationEnd)
    (p : Parser) : Parser :=
  set_associations (alter (fun a => {| ends := ends a ++ [info] |}) assoc_name) p.

(** The body of the loop over the [Association] children of the schema. *)
Definition parse_association (p : Parser) (association : Element) : Parser :=
  let assoc_name := get "Name" association in
  let p := set_associations (<[ assoc_name := mkAssociation [] ]>) p in
  fold_left
    (fun p e =>
       append_end assoc_name
         (mkEnd (get "Role" e) (get "Type" e) (get "Multiplicity" e)) p)
    (findall "End" association) p.

Definition parse_schema (schema : Element) (p : Parser) : Parser :=
  let p := fold_left parse_entity_type (findall "EntityType" schema) p in
  fold_left parse_association (findall "Association" schema) p.

Section Parsing.
Context `{P : Platform}.

(** [ET.fromstring(text)]: the root element, or the parse error raised. *)
Variable fromstring : string -> exc Element.

(** [_parse_xml_metadata]: how the call ends and the parser as it leaves it.
    What the walk raises is caught and printed.  The handler prints
    [self.metadata[:1000]]: with no text stored this raises in its turn, out
    of the method, the tables untouched. *)
Definition _parse_xml_metadata (p : Parser) : exc unit * Parser :=
  match metadata p with
  | None => (Raise "'NoneType' object is not subscriptable", p)
  | Some text =>
      (Ok tt,
       match fromstring text with
       | Raise _ => p
       | Ok root =>
           match find_descendant "Schema" root with
           | None => p
           | Some schema => parse_schema schema p
           end
       end)
  end.

Definition metadata_url (cfg : SAPConfig) : string :=
  base_url cfg +:+ service_root +:+ "$metadata".

(** [fetch_metadata]: the result and the parser as it is afterwards. *)
Definition fetch_metadata (p : Parser) : M (bool * Parser) :=
  try_except
    (o <- get_self ;;
     let url := metadata_url (config o) in
     auth <- lift (basic_auth (credentials (config o))) ;;
     let hdrs : gmap string (option string) := {[ "authorization" := Some auth ]} in
     response <- request GET url None hdrs ;;
     if (status response =? 200)%Z
     then
       text <- lift (decode (data response)) ;;
       let p :=
         {| metadata := Some text; entities := entities p;
            associations := associations p; nav_lookup := nav_lookup p |} in
       (* an exception of the parse is caught by the handler of this method,
          after the assignment above *)
       match _parse_xml_metadata p with
       | (Ok _, p) => ret (true, p)
       | (Raise _, p) => ret (false, p)
       end
     else
       _ <- lift (decode (data response)) ;;
       ret (false, p))
    (fun e => ret (false, p)).

End Parsing.

(** [get_navigation_properties_for_entity]. *)
Definition get_navigation_properties_for_entity (p : Parser)
    (entity_name : string) : list NavigationInfo :=
  match entities p !! Some entity_name with
  | Some e => navigation_properties e
  | None => []
  end.

(** [get_entity_properties]. *)
Definition get_entity_properties (p : Parser) (entity_name : string)
    : list PropertyInfo :=
  match entities p !! Some entity_name with
  | Some e => properties e
  | None => []
  end.

(** Every navigation property listed under an entity can be looked up by
    its key. *)
Definition indexed (p : Parser) : Prop :=
  forall entity_name e nav,
    entities p !! entity_name = Some e ->
    In nav (navigation_properties e) ->
    is_Some (nav_lookup p !! nav_key entity_name (nav_name nav)).

Definition property_of (prop : Element) : PropertyInfo :=
  mkProperty (get "Name" prop) (get "Type" prop).

Definition navigation_of (nav_prop : Element) : NavigationInfo :=
  mkNavigation (get "Name" nav_prop) (get "Relationship" nav_prop)
    (get "ToRole" nav_prop).

Definition end_of (e : Element) : AssociationEnd :=
  mkEnd (get "Role" e) (get "Type" e) (get "Multiplicity" e).

(** The lookup table after the loop over the navigation properties of an
    entity type. *)
Definition index_navigations (en : option string) (navs : list Element)
    (m : gmap string NavigationEntry) : gmap string NavigationEntry :=
  fold_left
    (fun m nav =>
       <[ nav_key en (get "Name" nav) :=
            mkEntry en (get "Name" nav) (get "Relationship" nav) (get "ToRole" nav) ]> m)
    navs m.

(** No key of the tables of [p] is missing from those of [q]. *)
Definition grows (p q : Parser) : Prop :=
  (forall k, is_Some (entities p !! k) -> is_Some (entities q !! k)) /\
  (forall k, is_Some (associations p !! k) -> is_Some (associations q !! k)) /\
  (forall k, is_Some (nav_lookup p !! k) -> is_Some (nav_lookup q !! k)).

(** [p] once [self.metadata] is set to [text]. *)
Definition with_metadata (text : string) (p : Parser) : Parser :=
  {| metadata := Some text; entities := entities p;
     associations := associations p; nav_lookup := nav_lookup p |}.

(** A small metadata document: one schema with an order type that has a
    key property and one navigation property, and one association. *)
Definition sample_schema : Element :=
  Elem (qname "Schema") [("Namespace", "API_SALES_ORDER_SRV")]
    [ Elem (qname "EntityType") [("Name", "A_SalesOrderType")]
        [ Elem (qname "Property") [("Name", "SalesOrder"); ("Type", "Edm.String")] [];
          Elem (qname "NavigationProperty")
            [("Name", "to_Item"); ("Relationship", "API.assoc_item");
             ("ToRole", "ToRole_item")] [] ];
      Elem (qname "Association") [("Name", "assoc_item")]
        [ Elem (qname "End") [("Role", "FromRole_item"); ("Type", "API.A_SalesOrderType");
                              ("Multiplicity", "1")] [];
          Elem (qname "End") [("Role", "ToRole_item"); ("Type", "API.A_SalesOrderItemType");
                              ("Multiplicity", "*")] [] ] ].

Definition sample_root : Element :=
  Elem "{http://schemas.microsoft.com/ado/2007/06/edmx}Edmx" []
    [ Elem "{http://schemas.microsoft.com/ado/2007/06/edmx}DataServices" []
        [ sample_schema ] ].

(** An XML reader that knows one document. *)
Definition sample_fromstring (text : string) : exc Element :=
  if String.eqb text "<edmx/>" then Ok sample_root else Raise "syntax error: line 1, column 0".

End Metadata.


(** ** Classes of characters *)

Module Chars.

Definition is_digit (c : ascii) : bool := Utf8.between 48 57 c.

(** The first bytes of the whitespace characters. *)
Definition space_leads : list N :=
  [9; 10; 11; 12; 13; 28; 29; 30; 31; 32; 194; 225; 226; 227]%N.

Definition is_space_lead (c : ascii) : bool :=
  existsb (N.eqb (N_of_ascii c)) space_leads.

Fixpoint all (f : ascii -> bool) (s : string) : bool :=
  match s with
  | EmptyString => true
  | String c r => f c && all f r
  end.

(** No character of [s] is, or begins, a whitespace character. *)
Definition spaceless (s : string) : bool := all (fun c => negb (is_space_lead c)) s.

End Chars.

(** * Verification

    ** Symbolic execution of the method bodies *)

Section Runs.
Context `{P : Platform}.

Lemma bind_step {A B} (m : M A) (k : A -> M B) s v s' t :
  m s = mkRun v s' t ->
  bind m k s =
  match v with
  | Ok a => prepend t (k a s')
  | Raise e => mkRun (Raise e) s' t
  end.
Proof. intros E. unfold bind. rewrite E. destruct v; reflexivity. Qed.

Lemma try_step {A} (m : M A) (h : string -> M A) s v s' t :
  m s = mkRun v s' t ->
  try_except m h s =
  match v with
  | Ok a => mkRun (Ok a) s' t
  | Raise e => prepend t (h e s')
  end.
Proof. intros E. unfold try_except. rewrite E. destruct v; reflexivity. Qed.

Lemma request_step m u b h s out w :
  http_request (world s) (mkRequest m u b h) = (out, w) ->
  request m u b h s = mkRun out (mkSys (self s) w) [(mkRequest m u b h, out)].
Proof. intros E. unfold request. rewrite E. reflexivity. Qed.

Ltac red_run :=
  cbn [value final trace self world config csrf_token cookies fst snd app negb
       status headers data method url body req_headers prepend].

Ltac step := erewrite bind_step by reflexivity; red_run.
Ltac finish := unfold ret, prepend; red_run; rewrite ?app_nil_r; reflexivity.

Lemma get_headers_run (b : bool) (s : Sys) :
  get_headers b s =
  match basic_auth (credentials (config (self s))) with
  | Ok auth =>
      mkRun (Ok (if b then write_headers (self s) auth else base_headers auth)) s []
  | Raise msg => mkRun (Raise msg) s []
  end.
Proof.
  unfold get_headers, bind, get_self, lift, ret, write_headers, base_headers, credentials.
  red_run. destruct (basic_auth _); red_run; [|reflexivity].
  destruct b; cbn [andb]; [|reflexivity].
  destruct (PyStr.truthy _); reflexivity.
Qed.

Ltac step_headers EA :=
  erewrite bind_step; [|rewrite get_headers_run; red_run; rewrite EA; reflexivity]; red_run.
Ltac step_request ER :=
  erewrite bind_step; [|apply request_step; exact ER]; red_run.
Ltac step_call E := erewrite bind_step; [|exact E]; red_run.

Lemma get_csrf_token_run (s : Sys) :
  get_csrf_token s =
  match basic_auth (credentials (config (self s))) with
  | Raise _ => mkRun (Ok false) s []
  | Ok auth =>
      let rq := token_request (config (self s)) auth in
      match http_request (world s) rq with
      | (Raise msg, w) => mkRun (Ok false) (mkSys (self s) w) [(rq, Raise msg)]
      | (Ok r, w) =>
          if PyStr.truthy (Headers.get "x-csrf-token" (headers r))
          then mkRun (Ok true) (mkSys (store_token r (self s)) w) [(rq, Ok r)]
          else mkRun (Ok false) (mkSys (self s) w) [(rq, Ok r)]
      end
  end.
Proof.
  unfold get_csrf_token, token_request. cbv zeta.
  destruct (basic_auth _) as [auth|msg] eqn:EA.
  2:{ erewrite try_step; [|erewrite bind_step; [|rewrite get_headers_run, EA; reflexivity]; reflexivity].
      reflexivity. }
  destruct (http_request _ _) as [[r|msg] w] eqn:ER.
  2:{ erewrite try_step.
      2:{ erewrite bind_step; [|rewrite get_headers_run, EA; reflexivity]. red_run.
          step. erewrite bind_step; [|apply request_step; exact ER]. reflexivity. }
      reflexivity. }
  destruct (PyStr.truthy _) eqn:ET.
  - unfold store_token, cookie_header.
    destruct (Headers.get_all _ _) eqn:EC.
    + erewrite try_step.
      2:{ erewrite bind_step; [|rewrite get_headers_run, EA; reflexivity]. red_run.
          step. erewrite bind_step; [|apply request_step; exact ER]. red_run.
          rewrite ET. step. rewrite EC. step. reflexivity. }
      reflexivity.
    + erewrite try_step.
      2:{ erewrite bind_step; [|rewrite get_headers_run, EA; reflexivity]. red_run.
          step. erewrite bind_step; [|apply request_step; exact ER]. red_run.
          rewrite ET. step. rewrite EC. step. reflexivity. }
      reflexivity.
  - erewrite try_step.
    2:{ erewrite bind_step; [|rewrite get_headers_run, EA; reflexivity]. red_run.
        step. erewrite bind_step; [|apply request_step; exact ER]. red_run.
        rewrite ET. reflexivity. }
    reflexivity.
Qed.

Lemma remove_delivery_block_run (order_id reason : string) (s : Sys) :
  remove_delivery_block order_id reason s =
  let r1 := get_csrf_token s in
  let s1 := final r1 in
  match value r1 with
  | Raise msg => mkRun (Ok (Failed msg)) s1 (trace r1)
  | Ok false => mkRun (Ok TokenError) s1 (trace r1)
  | Ok true =>
      match basic_auth (credentials (config (self s1))) with
      | Raise msg => mkRun (Ok (Failed msg)) s1 (trace r1)
      | Ok auth =>
          let rq2 := etag_request (config (self s1)) auth order_id in
          match http_request (world s1) rq2 with
          | (Raise msg, w2) =>
              mkRun (Ok (Failed msg)) (mkSys (self s1) w2)
                (trace r1 ++ [(rq2, Raise msg)])
          | (Ok r2, w2) =>
              if (status r2 =? 200)%Z
              then
                let rq3 := patch_request (self s1) auth order_id (etag_of r2) in
                match http_request w2 rq3 with
                | (Raise msg, w3) =>
                    mkRun (Ok (Failed msg)) (mkSys (self s1) w3)
                      (trace r1 ++ [(rq2, Ok r2); (rq3, Raise msg)])
                | (Ok r3, w3) =>
                    mkRun (classify_write order_id reason r3) (mkSys (self s1) w3)
                      (trace r1 ++ [(rq2, Ok r2); (rq3, Ok r3)])
                end
              else
                mkRun (Ok (NotFoundError (status r2))) (mkSys (self s1) w2)
                  (trace r1 ++ [(rq2, Ok r2)])
          end
      end
  end.
Proof.
  unfold remove_delivery_block, etag_request, patch_request, classify_write,
    etag_of, TokenError, NotFoundError, WriteRejected.
  cbv zeta.
  destruct (get_csrf_token s) as [v1 s1 t1] eqn:E1. red_run.
  destruct v1 as [[|]|msg1].
  2:{ erewrite try_step; [|step_call E1; reflexivity]. red_run.
      finish. }
  2:{ erewrite try_step; [|step_call E1; reflexivity]. red_run.
      finish. }
  destruct (basic_auth _) as [auth|msg] eqn:EA.
  2:{ erewrite try_step; [|step_call E1; step; step_headers EA; reflexivity].
      finish. }
  destruct (http_request (world s1) _) as [[r2|msg] w2] eqn:ER2.
  2:{ erewrite try_step;
        [|step_call E1; step; step_headers EA; step_request ER2; reflexivity].
      finish. }
  destruct (status r2 =? 200)%Z eqn:E200.
  2:{ erewrite try_step;
        [|step_call E1; step; step_headers EA; step_request ER2;
          rewrite E200; red_run; reflexivity].
      finish. }
  destruct (http_request w2 _) as [[r3|msg] w3] eqn:ER3.
  2:{ erewrite try_step;
        [|step_call E1; step; step_headers EA; step_request ER2;
          rewrite E200; red_run; step_headers EA; step_request ER3; reflexivity].
      finish. }
  destruct (_ || _) eqn:EOK.
  { erewrite try_step;
      [|step_call E1; step; step_headers EA; step_request ER2;
        rewrite E200; red_run; step_headers EA; step_request ER3;
        rewrite EOK; reflexivity].
    finish. }
  destruct (decode _) as [text|msg] eqn:ED.
  - erewrite try_step;
      [|step_call E1; step; step_headers EA; step_request ER2;
        rewrite E200; red_run; step_headers EA; step_request ER3;
        rewrite EOK; erewrite bind_step; [|unfold lift; rewrite ED; reflexivity];
        reflexivity].
    finish.
  - erewrite try_step;
      [|step_call E1; step; step_headers EA; step_request ER2;
        rewrite E200; red_run; step_headers EA; step_request ER3;
        rewrite EOK; erewrite bind_step; [|unfold lift; rewrite ED; reflexivity];
        reflexivity].
    finish.
Qed.


Lemma read_sales_order_run (order_id : string) (s : Sys) :
  read_sales_order order_id s =
  match basic_auth (credentials (config (self s))) with
  | Raise msg => mkRun (Ok (ReadFailed msg)) s []
  | Ok auth =>
      let rq := read_request (config (self s)) auth order_id in
      match http_request (world s) rq with
      | (Raise msg, w) =>
          mkRun (Ok (ReadFailed msg)) (mkSys (self s) w) [(rq, Raise msg)]
      | (Ok r, w) => mkRun (Ok (classify_read r)) (mkSys (self s) w) [(rq, Ok r)]
      end
  end.
Proof.
  unfold read_sales_order, read_request, classify_read. cbv zeta.
  destruct (basic_auth _) as [auth|msg] eqn:EA.
  2:{ erewrite try_step; [|step; step_headers EA; reflexivity]. finish. }
  destruct (http_request _ _) as [[r|msg] w] eqn:ER.
  2:{ erewrite try_step; [|step; step_headers EA; step_request ER; reflexivity].
      finish. }
  destruct (status r =? 200)%Z eqn:E200.
  2:{ erewrite try_step;
        [|step; step_headers EA; step_request ER; rewrite E200; reflexivity].
      finish. }
  destruct (decode _) as [text|msg] eqn:ED.
  2:{ erewrite try_step;
        [|step; step_headers EA; step_request ER; rewrite E200;
          erewrite bind_step; [|unfold lift; rewrite ED; reflexivity]; reflexivity].
      finish. }
  destruct (json_loads _) as [d|msg] eqn:EL.
  2:{ erewrite try_step;
        [|step; step_headers EA; step_request ER; rewrite E200;
          erewrite bind_step; [|unfold lift; rewrite ED; reflexivity]; red_run;
          erewrite bind_step; [|unfold lift; rewrite EL; reflexivity]; reflexivity].
      finish. }
  destruct (json_get_d _) as [od|msg] eqn:EG.
  - erewrite try_step;
      [|step; step_headers EA; step_request ER; rewrite E200;
        erewrite bind_step; [|unfold lift; rewrite ED; reflexivity]; red_run;
        erewrite bind_step; [|unfold lift; rewrite EL; reflexivity]; red_run;
        erewrite bind_step; [|unfold lift; rewrite EG; reflexivity]; reflexivity].
    finish.
  - erewrite try_step;
      [|step; step_headers EA; step_request ER; rewrite E200;
        erewrite bind_step; [|unfold lift; rewrite ED; reflexivity]; red_run;
        erewrite bind_step; [|unfold lift; rewrite EL; reflexivity]; red_run;
        erewrite bind_step; [|unfold lift; rewrite EG; reflexivity]; reflexivity].
    finish.
Qed.

Lemma test_connection_run (s : Sys) :
  test_connection s =
  match basic_auth (credentials (config (self s))) with
  | Raise msg => mkRun (Ok false) s []
  | Ok auth =>
      let rq :=
        mkRequest GET (base_url (config (self s)) +:+ service_root +:+ "?$format=json")
          None (base_headers auth) in
      match http_request (world s) rq with
      | (Raise msg, w) => mkRun (Ok false) (mkSys (self s) w) [(rq, Raise msg)]
      | (Ok r, w) =>
          mkRun (Ok (status r =? 200)%Z) (mkSys (self s) w) [(rq, Ok r)]
      end
  end.
Proof.
  unfold test_connection. cbv zeta.
  destruct (basic_auth _) as [auth|msg] eqn:EA.
  2:{ erewrite try_step; [|step; step_headers EA; reflexivity]. finish. }
  destruct (http_request _ _) as [[r|msg] w] eqn:ER.
  2:{ erewrite try_step; [|step; step_headers EA; step_request ER; reflexivity].
      finish. }
  erewrite try_step; [|step; step_headers EA; step_request ER; reflexivity].
  destruct (status r =? 200)%Z; finish.
Qed.

(** Every run of [get_csrf_token] is one of the four cases of [token_run]. *)
Lemma token_spec (s : Sys) : token_run s (get_csrf_token s).
Proof.
  rewrite get_csrf_token_run.
  destruct (basic_auth _) as [auth|msg] eqn:EA; [|eapply token_no_credentials; eauto].
  cbv zeta.
  destruct (http_request _ _) as [[r|msg] w] eqn:ER; [|eapply token_transport; eauto].
  destruct (PyStr.truthy _) eqn:ET.
  - apply token_stored. repeat split; assumption.
  - apply token_missing; assumption.
Qed.

Lemma token_hit_run (s : Sys) auth r w :
  token_hit s auth r w ->
  get_csrf_token s =
  mkRun (Ok true) (mkSys (store_token r (self s)) w)
    [(token_request (config (self s)) auth, Ok r)].
Proof.
  intros (EA & ER & ET). rewrite get_csrf_token_run, EA. cbv zeta.
  rewrite ER, ET. reflexivity.
Qed.

(** Every run of [remove_delivery_block] is one of the cases of [update_run]. *)
Lemma update_spec (order_id reason : string) (s : Sys) :
  update_run order_id reason s (remove_delivery_block order_id reason s).
Proof.
  rewrite remove_delivery_block_run. cbv zeta.
  pose proof (token_spec s) as T.
  destruct T as [msg EA | auth msg w EA ER | auth r w EA ER ET | auth r w H]; red_run.
  - apply (update_no_token _ _ _ _ (token_no_credentials s msg EA)). reflexivity.
  - apply (update_no_token _ _ _ _ (token_transport s auth msg w EA ER)). reflexivity.
  - apply (update_no_token _ _ _ _ (token_missing s auth r w EA ER ET)). reflexivity.
  - unfold store_token at 1 2. red_run.
    destruct H as (EA & ER & ET). rewrite EA.
    assert (H : token_hit s auth r w) by (repeat split; assumption).
    destruct (http_request w _) as [[r2|msg] w2] eqn:ER2;
      [|eapply update_read_raised; eauto].
    destruct (status r2 =? 200)%Z eqn:E200.
    + apply Z.eqb_eq in E200.
      destruct (http_request w2 _) as [[r3|msg] w3] eqn:ER3.
      * eapply update_patched; eauto.
      * eapply update_patch_raised; eauto.
    + apply Z.eqb_neq in E200. eapply update_not_found; eauto.
Qed.

End Runs.

(** ** Strings and header dictionaries *)

Section StringFacts.
Import PyStr.

Lemma length_append (u v : string) :
  String.length (u +:+ v) = String.length u + String.length v.
Proof. induction u as [|c u IH]; simpl; [reflexivity | now rewrite IH]. Qed.

(** One step of [replace('SO', '')]: an occurrence at the head is dropped,
    any other character is kept. *)
Lemma replace_SO_step (c : ascii) (s : string) :
  replace "SO" "" (String c s) =
  if starts_with "SO" (String c s)
  then match s with
       | String _ r => replace "SO" "" r
       | EmptyString => EmptyString
       end
  else String c (replace "SO" "" s).
Proof.
  unfold replace. cbn [replace_from].
  destruct (starts_with "SO" (String c s)); [|reflexivity].
  destruct s; reflexivity.
Qed.

Lemma starts_with_SO (c : ascii) (s : string) :
  starts_with "SO" (String c s) = true <-> c = "S"%char /\ exists r, s = String "O" r.
Proof.
  cbn [starts_with]. split.
  - intros H. apply andb_prop in H as [Hc H].
    apply Ascii.eqb_eq in Hc. destruct s as [|d r]; [discriminate|].
    apply andb_prop in H as [Hd _]. apply Ascii.eqb_eq in Hd. subst. eauto.
  - intros [-> [r ->]]. reflexivity.
Qed.

Lemma replace_SO_app_bounded (n : nat) (u v : string) :
  String.length u <= n ->
  replace "SO" "" (u +:+ "SO" +:+ v) = replace "SO" "" u +:+ replace "SO" "" v.
Proof.
  revert u. induction n as [|n IH]; intros u Hn.
  - destruct u; [reflexivity | cbn in Hn; lia].
  - destruct u as [|c u]; [reflexivity|].
    cbn in Hn. change (String c u +:+ "SO" +:+ v) with (String c (u +:+ "SO" +:+ v)).
    rewrite !replace_SO_step.
    destruct (starts_with "SO" (String c u)) eqn:E.
    + apply starts_with_SO in E as [-> [r ->]]. cbn [starts_with String.append].
      rewrite !Ascii.eqb_refl. cbn [andb].
      apply IH. cbn in Hn. lia.
    + destruct (starts_with "SO" (String c (u +:+ "SO" +:+ v))) eqn:E'.
      * apply starts_with_SO in E' as [-> [r Hr]].
        destruct u as [|d u].
        -- cbn in Hr. discriminate.
        -- cbn in Hr. injection Hr as -> _. discriminate.
      * change (String c (replace "SO" "" u) +:+ replace "SO" "" v)
          with (String c (replace "SO" "" u +:+ replace "SO" "" v)).
        f_equal. apply IH. lia.
Qed.

(** Removing [SO] splits at any occurrence: what is left of the text is the
    cleaned part before it followed by the cleaned part after it. *)
Lemma replace_SO_app (u v : string) :
  replace "SO" "" (u +:+ "SO" +:+ v) = replace "SO" "" u +:+ replace "SO" "" v.
Proof. apply (replace_SO_app_bounded (String.length u)). lia. Qed.

Lemma replace_SO_length_bounded (n : nat) (s : string) :
  String.length s <= n ->
  String.length (replace "SO" "" s) <= String.length s.
Proof.
  revert s. induction n as [|n IH]; intros s Hn.
  - destruct s; [cbn; lia | cbn in Hn; lia].
  - destruct s as [|c s]; [cbn; lia|].
    cbn in Hn. rewrite replace_SO_step.
    destruct (starts_with "SO" (String c s)).
    + destruct s as [|d r]; [cbn; lia|].
      cbn in Hn. specialize (IH r ltac:(lia)). cbn [String.length]. lia.
    + specialize (IH s ltac:(lia)). cbn [String.length]. lia.
Qed.

Lemma replace_SO_length (s : string) :
  String.length (replace "SO" "" s) <= String.length s.
Proof. apply (replace_SO_length_bounded (String.length s)). lia. Qed.

Lemma lstrip_from_length (k : nat) (s : string) :
  String.length (lstrip_from k s) <= String.length s.
Proof.
  revert k. induction s as [|c s IH]; intros k; [cbn; lia|].
  cbn [lstrip_from]. destruct k as [|k].
  - destruct (space_width (String c s)) as [|j].
    + lia.
    + specialize (IH j). cbn [String.length]. lia.
  - specialize (IH k). cbn [String.length]. lia.
Qed.

Lemma rstrip_length (s : string) :
  String.length (rstrip s) <= String.length s.
Proof.
  induction s as [|c s IH]; [cbn; lia|].
  cbn [rstrip]. destruct (isspace_all (String c s)); cbn [String.length]; lia.
Qed.

Lemma strip_length (s : string) :
  String.length (strip s) <= String.length s.
Proof.
  unfold strip, lstrip.
  pose proof (rstrip_length (lstrip_from 0 s)).
  pose proof (lstrip_from_length 0 s). lia.
Qed.

(** Header lookups see the name only up to the case of its letters. *)
Lemma get_all_same_name (k1 k2 : string) (h : HTTPHeaderDict) :
  lower k1 = lower k2 -> Headers.get_all k1 h = Headers.get_all k2 h.
Proof.
  intros E. induction h as [|[name v] h IH]; [reflexivity|].
  cbn [Headers.get_all]. unfold Headers.same_name. rewrite E, IH. reflexivity.
Qed.

Lemma get_same_name (k1 k2 : string) (h : HTTPHeaderDict) :
  lower k1 = lower k2 -> Headers.get k1 h = Headers.get k2 h.
Proof. intros E. unfold Headers.get. now rewrite (get_all_same_name k1 k2 h E). Qed.

Lemma truthy_spec (v : option string) :
  truthy v = true <-> exists t, v = Some t /\ t <> EmptyString.
Proof.
  split.
  - destruct v as [[|c t]|]; cbn; try discriminate. intros _. eexists. split; [reflexivity|discriminate].
  - intros (t & -> & Ht). destruct t; [congruence | reflexivity].
Qed.

Lemma py_or_same (x : option string) : py_or x (py_or x x) = x.
Proof. unfold py_or. destruct (truthy x); reflexivity. Qed.

Lemma remove_dups_NoDup {A} `{EqDecision A} (l : list A) :
  NoDup l -> remove_dups l = l.
Proof.
  induction 1 as [|x l Hx Hl IH]; [reflexivity|].
  cbn. destruct (decide_rel elem_of x l); [contradiction|]. now rewrite IH.
Qed.

End StringFacts.

(** The three spellings name one and the same field, so the stamp taken by
    the update is simply the value of the response's ETag field. *)
Lemma etag_of_get `{P : Platform} (r : Response) :
  etag_of r = Headers.get "ETag" (headers r).
Proof.
  unfold etag_of.
  rewrite (get_same_name "etag" "ETag"), (get_same_name "Etag" "ETag") by reflexivity.
  apply py_or_same.
Qed.

(** ** The headers of the requests sent *)

Section RequestHeaders.
Context `{P : Platform}.

Lemma base_headers_lookup (auth key : string) :
  key <> "Accept" -> key <> "Content-Type" -> key <> "authorization" ->
  base_headers auth !! key = None.
Proof.
  intros H1 H2 H3. unfold base_headers.
  rewrite !lookup_insert_ne by congruence.
  apply lookup_singleton_ne. congruence.
Qed.

Lemma write_headers_if_match (o : Service) (auth : string) :
  write_headers o auth !! "If-Match" = None.
Proof.
  unfold write_headers. destruct (PyStr.truthy _).
  - rewrite !lookup_insert_ne by discriminate.
    apply base_headers_lookup; discriminate.
  - apply base_headers_lookup; discriminate.
Qed.

(** The PATCH carries [If-Match] exactly when the stamp is non-empty, and
    then with the stamp as its value. *)
Lemma patch_if_match (o : Service) (auth order_id : string) (etag : option string) :
  req_headers (patch_request o auth order_id etag) !! "If-Match" =
  if PyStr.truthy etag then Some etag else None.
Proof.
  unfold patch_request. cbn [req_headers]. destruct (PyStr.truthy etag).
  - apply lookup_insert_eq.
  - apply write_headers_if_match.
Qed.

(** The PATCH carries the cached token and cookie string. *)
Lemma patch_credentials (o : Service) (auth order_id : string) (etag : option string) :
  PyStr.truthy (csrf_token o) = true ->
  req_headers (patch_request o auth order_id etag) !! "x-csrf-token"
    = Some (csrf_token o) /\
  req_headers (patch_request o auth order_id etag) !! "Cookie" = Some (cookies o).
Proof.
  intros H. unfold patch_request, write_headers. cbn [req_headers]. rewrite H.
  destruct (PyStr.truthy etag).
  - rewrite !(lookup_insert_ne _ "If-Match") by discriminate.
    rewrite lookup_insert_ne by discriminate.
    rewrite !lookup_insert_eq. split; reflexivity.
  - rewrite lookup_insert_ne by discriminate.
    rewrite !lookup_insert_eq. split; reflexivity.
Qed.

Lemma token_request_fetch (cfg : SAPConfig) (auth : string) :
  req_headers (token_request cfg auth) !! "x-csrf-token" = Some (Some "fetch").
Proof. unfold token_request. cbn [req_headers]. apply lookup_insert_eq. Qed.

(** [get_csrf_token] sends GET requests only, at most one of them. *)
Lemma token_run_trace (s : Sys) (t : Run bool) :
  token_run s t ->
  trace t = [] \/
  exists auth out, trace t = [(token_request (config (self s)) auth, out)].
Proof. destruct 1; cbn [trace]; eauto. Qed.

Lemma token_run_no_patch (s : Sys) (t : Run bool) :
  token_run s t -> List.filter is_patch (trace t) = [].
Proof. destruct 1; reflexivity. Qed.

Lemma token_run_returns (s : Sys) (t : Run bool) :
  token_run s t -> exists b, value t = Ok b.
Proof. destruct 1; cbn [value]; eauto. Qed.

End RequestHeaders.

(** * The write sequence

    ** Token before write *)

(** C1.  A PATCH is issued by [remove_delivery_block] only when the
    [get_csrf_token] it runs first returned [True]; and when the response to
    the token fetch has no [x-csrf-token] field, [get_csrf_token] returns
    [False] and the update returns the token failure having made no call
    beyond the token fetch. *)
Theorem patch_requires_token `{P : Platform} (order_id reason : string) (s : Sys) :
  let run := remove_delivery_block order_id reason s in
  let tok := get_csrf_token s in
  (patches run <> [] -> value tok = Ok true) /\
  (forall rq r,
     trace tok = [(rq, Ok r)] ->
     Headers.get "x-csrf-token" (headers r) = None ->
     value tok = Ok false /\ value run = Ok TokenError /\ trace run = trace tok).
Proof.
  cbv zeta. split.
  - intros Hp. pose proof (update_spec order_id reason s) as U.
    remember (remove_delivery_block order_id reason s) as run eqn:Erun.
    destruct U as [t T Hv | auth r1 w1 msg w2 H | auth r1 w1 r2 w2 H
                  | auth r1 w1 r2 w2 msg w3 H | auth r1 w1 r2 w2 r3 w3 H];
      try (rewrite (token_hit_run s _ _ _ H); reflexivity).
    exfalso. apply Hp. unfold patches. cbn [trace].
    apply (token_run_no_patch s t T).
  - intros rq r Ht Hnone.
    rewrite remove_delivery_block_run. cbv zeta.
    pose proof (token_spec s) as T.
    destruct T as [msg EA | auth msg w EA ER | auth r' w EA ER ET | auth r' w H];
      cbn [trace value final] in *; try discriminate.
    + repeat split; reflexivity.
    + injection Ht as _ ->. destruct H as (_ & _ & ET).
      rewrite Hnone in ET. discriminate.
Qed.

Lemma patch_requires_token_witness :
  value (get_csrf_token Scenario.happy) = Ok true /\
  (value (get_csrf_token Scenario.denied) = Ok false /\
   value (remove_delivery_block "4353" "approved" Scenario.denied) = Ok TokenError /\
   trace (remove_delivery_block "4353" "approved" Scenario.denied)
     = trace (get_csrf_token Scenario.denied)).
Proof.
  split.
  - apply (proj1 (patch_requires_token "SO4353" "approved" Scenario.happy)).
    vm_compute. discriminate.
  - eapply (proj2 (patch_requires_token "4353" "approved" Scenario.denied)).
    + vm_compute. reflexivity.
    + vm_compute. reflexivity.
Defined.

(** ** A failed read stops the update *)

(** C4.  When the read of the order, the second call of the update, is
    answered with a status outside 200..299, the update returns the failure
    that names this status and ends there: no PATCH is issued. *)
Theorem read_failure_aborts `{P : Platform} (order_id reason : string) (s : Sys)
    (e1 : Event) (rq2 : Request) (r2 : Response) (rest : list Event) :
  trace (remove_delivery_block order_id reason s) = e1 :: (rq2, Ok r2) :: rest ->
  ~ (200 <= status r2 < 300)%Z ->
  value (remove_delivery_block order_id reason s) = Ok (NotFoundError (status r2)) /\
  rest = [] /\
  patches (remove_delivery_block order_id reason s) = [] /\
  method rq2 = GET /\
  url rq2 = order_url (config (self s)) (clean_order_id order_id) +:+ "?$format=json".
Proof.
  intros Ht Hs. pose proof (update_spec order_id reason s) as U.
  unfold patches.
  remember (remove_delivery_block order_id reason s) as run eqn:Erun.
  destruct U as [t T Hv | auth r1 w1 msg w2 H | auth r1 w1 r2' w2 H E2 Hne
                | auth r1 w1 r2' w2 msg w3 H E2 H200
                | auth r1 w1 r2' w2 r3 w3 H E2 H200]; cbn [trace value] in *.
  - destruct (token_run_trace s t T) as [E | (auth & out & E)];
      rewrite E in Ht; discriminate.
  - discriminate.
  - injection Ht as _ <- <- <-. repeat split; reflexivity.
  - injection Ht as _ _ <- _. lia.
  - injection Ht as _ _ <- _. lia.
Qed.

Lemma read_failure_aborts_witness :
  value (remove_delivery_block "SO4353" "approved" Scenario.not_found)
    = Ok (NotFoundError 404) /\
  patches (remove_delivery_block "SO4353" "approved" Scenario.not_found) = [].
Proof.
  edestruct (read_failure_aborts "SO4353" "approved" Scenario.not_found)
    as (H1 & _ & H3 & _).
  - vm_compute. reflexivity.
  - cbn [status]. lia.
  - split; [exact H1 | exact H3].
Defined.

(** ** The stamp of the read and the [If-Match] of the write *)

(** C2, as amended.  Once the read of the order is answered with status 200
    the PATCH follows.  It carries [If-Match] with exactly the value of the
    response's ETag field, looked up under any of the three spellings, when
    that value is not empty; when the field is missing or empty the PATCH is
    sent all the same, without [If-Match]. *)
Theorem stamp_echoed `{P : Platform} (order_id reason : string) (s : Sys)
    (e1 : Event) (rq2 : Request) (r2 : Response) (rest : list Event) :
  trace (remove_delivery_block order_id reason s) = e1 :: (rq2, Ok r2) :: rest ->
  status r2 = 200%Z ->
  exists rq3 out3,
    rest = [(rq3, out3)] /\ method rq3 = PATCH /\
    (forall name v,
       In name etag_spellings ->
       Headers.get name (headers r2) = Some v -> v <> EmptyString ->
       req_headers rq3 !! "If-Match" = Some (Some v)) /\
    (Headers.get "ETag" (headers r2) = None \/
     Headers.get "ETag" (headers r2) = Some EmptyString ->
     req_headers rq3 !! "If-Match" = None).
Proof.
  intros Ht H200. pose proof (update_spec order_id reason s) as U.
  remember (remove_delivery_block order_id reason s) as run eqn:Erun.
  assert (Hhdr : forall o auth rq3,
            rq3 = patch_request o auth order_id (etag_of r2) ->
            method rq3 = PATCH /\
            (forall name v,
               In name etag_spellings ->
               Headers.get name (headers r2) = Some v -> v <> EmptyString ->
               req_headers rq3 !! "If-Match" = Some (Some v)) /\
            (Headers.get "ETag" (headers r2) = None \/
             Headers.get "ETag" (headers r2) = Some EmptyString ->
             req_headers rq3 !! "If-Match" = None)).
  { intros o auth rq3 ->. split; [reflexivity|].
    rewrite patch_if_match, etag_of_get. split.
    - intros name v Hin Hget Hv.
      assert (E : Headers.get "ETag" (headers r2) = Some v).
      { rewrite <- Hget. apply get_same_name.
        destruct Hin as [<-|[<-|[<-|[]]]]; reflexivity. }
      rewrite E. destruct v; [congruence | reflexivity].
    - intros [-> | ->]; reflexivity. }
  destruct U as [t T Hv | auth r1 w1 msg w2 H | auth r1 w1 r2' w2 H E2 Hne
                | auth r1 w1 r2' w2 msg w3 H E2 H200' E3
                | auth r1 w1 r2' w2 r3 w3 H E2 H200' E3]; cbn [trace] in Ht.
  - destruct (token_run_trace s t T) as [E | (auth & out & E)];
      rewrite E in Ht; discriminate.
  - discriminate.
  - injection Ht as _ _ <- _. contradiction.
  - injection Ht as _ _ <- <-. do 2 eexists. split; [reflexivity|]. eapply Hhdr; reflexivity.
  - injection Ht as _ _ <- <-. do 2 eexists. split; [reflexivity|]. eapply Hhdr; reflexivity.
Qed.

Lemma stamp_echoed_witness :
  exists rq3 out3,
    [ (patch_request (store_token Scripted.token_ok (init Scripted.cfg))
         "Basic ACCAPI:secret" "SO4353" (Some "W/abc123"), Ok Scripted.patch_204) ]
      = [(rq3, out3)] /\
    req_headers rq3 !! "If-Match" = Some (Some "W/abc123").
Proof.
  destruct (stamp_echoed "SO4353" "approved" Scenario.happy
              (token_request Scripted.cfg "Basic ACCAPI:secret", Ok Scripted.token_ok)
              (etag_request Scripted.cfg "Basic ACCAPI:secret" "SO4353")
              Scripted.read_stamped
              [ (patch_request (store_token Scripted.token_ok (init Scripted.cfg))
                   "Basic ACCAPI:secret" "SO4353" (Some "W/abc123"),
                 Ok Scripted.patch_204) ])
    as (rq3 & out3 & Hrest & _ & Hv & _).
  - vm_compute. reflexivity.
  - reflexivity.
  - exists rq3, out3. split; [exact Hrest|].
    apply (Hv "etag" "W/abc123").
    + right. left. reflexivity.
    + reflexivity.
    + discriminate.
Defined.

(** C2 as stated fails: an ETag field with an empty value is a field under
    one of the spellings, yet the PATCH that follows has no [If-Match]. *)
Lemma stamp_echoed_counterexample :
  ~ (forall (P : Platform) (order_id reason : string) (s : Sys)
       (e1 : Event) (rq2 rq3 : Request) (r2 : Response) (out3 : exc Response)
       (name v : string),
       trace (remove_delivery_block order_id reason s)
         = [e1; (rq2, Ok r2); (rq3, out3)] ->
       In name etag_spellings ->
       Headers.get name (headers r2) = Some v ->
       req_headers rq3 !! "If-Match" = Some (Some v)).
Proof.
  intros H.
  specialize (H Scripted.platform "4353" "approved" Scenario.empty_stamp
                _ _ _ _ _ "ETag" "" eq_refl (or_introl eq_refl) eq_refl).
  vm_compute in H. discriminate.
Qed.

(** ** What a write presupposes *)




(** ** The outcome of the write *)

(** C5 at its failing input.  A PATCH is rejected with status 412 and a body
    that is not well-formed UTF-8: the update issues its one PATCH, and the
    failure it returns is the decoder's message, which holds neither the
    status nor the body. *)
Lemma undecodable_rejection_loses_status :
  let run := remove_delivery_block "4353" "approved" Scenario.undecodable in
  value run
    = Ok (Failed "'utf-8' codec can't decode byte 0xff in position 0: invalid start byte") /\
  value run <> Ok (WriteRejected 412 (data Scripted.patch_412_latin1)) /\
  length (patches run) = 1.
Proof. vm_compute. repeat split. discriminate. Qed.

(** ** Token acquisition *)

(** C6, as amended.  After a token fetch that returned [True] on a response
    with [Set-Cookie] fields, the cached cookie string is every [Set-Cookie]
    value, in the order received and repeated ones included, cut at its first
    [;] and joined by [; ]: [a=1; Path=/] and [b=2; HttpOnly] give
    [a=1; b=2].  It is the string of the distinct cookies when no cut value
    repeats. *)
Theorem cookie_header_joined `{P : Platform} (s : Sys) (rq : Request) (r : Response) :
  trace (get_csrf_token s) = [(rq, Ok r)] ->
  value (get_csrf_token s) = Ok true ->
  Headers.get_all "Set-Cookie" (headers r) <> [] ->
  let vs := Headers.get_all "Set-Cookie" (headers r) in
  cookies (self (final (get_csrf_token s)))
    = Some (PyStr.join "; " (map (PyStr.split_head ";") vs)) /\
  PyStr.join "; " (map (PyStr.split_head ";") ["a=1; Path=/"; "b=2; HttpOnly"])
    = "a=1; b=2" /\
  (NoDup (map (PyStr.split_head ";") vs) ->
   cookies (self (final (get_csrf_token s))) = Some (distinct_cookie_header vs)).
Proof.
  intros Ht Hv Hc. cbv zeta.
  pose proof (token_spec s) as T.
  remember (get_csrf_token s) as tok eqn:Etok.
  assert (E : cookies (self (final tok))
              = Some (PyStr.join "; "
                        (map (PyStr.split_head ";")
                           (Headers.get_all "Set-Cookie" (headers r))))).
  { destruct T as [msg EA | auth msg w EA ER | auth r' w EA ER ET | auth r' w H];
      cbn [trace value final self] in *; try discriminate.
    injection Ht as _ <-. unfold store_token, cookie_header. cbn [cookies].
    destruct (Headers.get_all "Set-Cookie" (headers r')); [congruence | reflexivity]. }
  split; [exact E|]. split; [reflexivity|].
  intros Hnd. rewrite E. unfold distinct_cookie_header.
  now rewrite (remove_dups_NoDup _ Hnd).
Qed.

Lemma cookie_header_joined_witness :
  cookies (self (final (get_csrf_token Scenario.happy))) = Some "a=1; b=2".
Proof.
  destruct (cookie_header_joined Scenario.happy
              (token_request Scripted.cfg "Basic ACCAPI:secret") Scripted.token_ok)
    as (H & _ & _).
  - vm_compute. reflexivity.
  - vm_compute. reflexivity.
  - vm_compute. discriminate.
  - exact H.
Defined.

(** C6 as stated fails: a cookie set twice is joined twice, where the
    distinct cookies would give it once. *)
Lemma distinct_cookies_counterexample :
  ~ (forall (P : Platform) (s : Sys) (rq : Request) (r : Response),
       trace (get_csrf_token s) = [(rq, Ok r)] ->
       value (get_csrf_token s) = Ok true ->
       Headers.get_all "Set-Cookie" (headers r) <> [] ->
       cookies (self (final (get_csrf_token s)))
         = Some (distinct_cookie_header (Headers.get_all "Set-Cookie" (headers r)))).
Proof.
  intros H.
  specialize (H Scripted.platform Scenario.repeated_cookie
                (token_request Scripted.cfg "Basic ACCAPI:secret")
                Scripted.token_twice).
  assert (E : cookies (self (final (get_csrf_token Scenario.repeated_cookie)))
              = Some "a=1; a=1") by (vm_compute; reflexivity).
  assert (D : distinct_cookie_header
                (Headers.get_all "Set-Cookie" (headers Scripted.token_twice)) = "a=1")
    by (vm_compute; reflexivity).
  rewrite E, D in H.
  assert (Some "a=1; a=1" = Some "a=1") as Habs.
  { apply H; vm_compute; [reflexivity | reflexivity | discriminate]. }
  discriminate Habs.
Qed.

(** C9, as amended.  On a response to the token fetch, whatever its status,
    [get_csrf_token] returns [True] exactly when the value of the
    [x-csrf-token] field is a non-empty string, and then that value is the
    cached token.  It never raises, and it returns [False] only when no call
    was made (the credentials could not be encoded), when the call raised,
    or when the field is missing or empty. *)
Theorem token_success_iff_header_nonempty `{P : Platform} (s : Sys) :
  let tok := get_csrf_token s in
  (forall rq r,
     trace tok = [(rq, Ok r)] ->
     value tok = Ok (PyStr.truthy (Headers.get "x-csrf-token" (headers r))) /\
     (value tok = Ok true <->
      exists v, Headers.get "x-csrf-token" (headers r) = Some v /\ v <> EmptyString) /\
     (value tok = Ok true ->
      csrf_token (self (final tok)) = Headers.get "x-csrf-token" (headers r))) /\
  (exists b, value tok = Ok b) /\
  (value tok = Ok false ->
   trace tok = [] \/
   (exists rq msg, trace tok = [(rq, Raise msg)]) \/
   (exists rq r, trace tok = [(rq, Ok r)] /\
      (Headers.get "x-csrf-token" (headers r) = None \/
       Headers.get "x-csrf-token" (headers r) = Some EmptyString))).
Proof.
  cbv zeta. pose proof (token_spec s) as T.
  remember (get_csrf_token s) as tok eqn:Etok.
  destruct T as [msg EA | auth msg w EA ER | auth r' w EA ER ET | auth r' w H];
    cbn [trace value final self].
  - split; [|split]; [intros rq r Ht; discriminate | eauto | eauto].
  - split; [|split]; [intros rq r Ht; discriminate | eauto | eauto 6].
  - split; [|split].
    + intros rq r Ht. injection Ht as _ <-. rewrite ET.
      split; [reflexivity|]. split; [|discriminate].
      split; [discriminate|]. intros Hex. apply truthy_spec in Hex. congruence.
    + eauto.
    + intros _. right. right. do 2 eexists. split; [reflexivity|].
      destruct (Headers.get "x-csrf-token" (headers r')) as [[|c v]|];
        [right; reflexivity | discriminate | left; reflexivity].
  - destruct H as (EA & ER & ET). split; [|split].
    + intros rq r Ht. injection Ht as _ <-. rewrite ET.
      split; [reflexivity|]. split; [|reflexivity].
      split; [|reflexivity]. intros _. apply truthy_spec. exact ET.
    + eauto.
    + discriminate.
Qed.

Lemma token_success_iff_header_nonempty_witness :
  value (get_csrf_token Scenario.forbidden_with_token) = Ok true /\
  csrf_token (self (final (get_csrf_token Scenario.forbidden_with_token)))
    = Some "T0k3n".
Proof.
  destruct (proj1 (token_success_iff_header_nonempty Scenario.forbidden_with_token)
              (token_request Scripted.cfg "Basic ACCAPI:secret")
              Scripted.token_403_with_token) as (Hv & _ & Hc).
  - vm_compute. reflexivity.
  - split; [exact Hv | exact (Hc Hv)].
Defined.

(** C9 as stated fails: a response that carries the field with an empty
    value is answered with [False]. *)
Lemma token_presence_counterexample :
  ~ (forall (P : Platform) (s : Sys) (rq : Request) (r : Response),
       trace (get_csrf_token s) = [(rq, Ok r)] ->
       Headers.get "x-csrf-token" (headers r) <> None ->
       value (get_csrf_token s) = Ok true).
Proof.
  intros H.
  specialize (H Scripted.platform Scenario.empty_token
                (token_request Scripted.cfg "Basic ACCAPI:secret")
                Scripted.token_empty).
  assert (E : value (get_csrf_token Scenario.empty_token) = Ok false)
    by (vm_compute; reflexivity).
  rewrite E in H.
  assert (Ok false = Ok true :> exc bool) as Habs.
  { apply H; vm_compute; [reflexivity | discriminate]. }
  discriminate Habs.
Qed.

(** ** The cached token and cookies *)

Lemma token_run_unique `{P : Platform} (s : Sys) (t : Run bool) :
  token_run s t -> get_csrf_token s = t.
Proof.
  intros T. rewrite get_csrf_token_run.
  destruct T as [msg EA | auth msg w EA ER | auth r w EA ER ET | auth r w H].
  - rewrite EA. reflexivity.
  - rewrite EA. cbv zeta. rewrite ER. reflexivity.
  - rewrite EA. cbv zeta. rewrite ER, ET. reflexivity.
  - destruct H as (EA & ER & ET). rewrite EA. cbv zeta. rewrite ER, ET. reflexivity.
Qed.


(** C7, as amended.  The service object is changed by the token acquisition
    step and by nothing else: an update leaves it as its token acquisition
    left it, reads and connection tests leave it as it was.  Nothing ever
    clears a cached token or cookie string, whatever the responses.  Instead
    every update starts with a token fetch, whatever is cached. *)
Theorem token_state_set_only_by_acquisition `{P : Platform}
    (order_id reason : string) (s : Sys) :
  let run := remove_delivery_block order_id reason s in
  self (final run) = self (final (get_csrf_token s)) /\
  self (final (read_sales_order order_id s)) = self s /\
  self (final (test_connection s)) = self s /\
  (csrf_token (self s) <> None -> csrf_token (self (final run)) <> None) /\
  (cookies (self s) <> None -> cookies (self (final run)) <> None) /\
  (forall e rest,
     trace run = e :: rest ->
     trace (get_csrf_token s) = [e] /\ method (fst e) = GET /\
     req_headers (fst e) !! "x-csrf-token" = Some (Some "fetch")).
Proof.
  cbv zeta.
  assert (Hkeep : forall t, token_run s t ->
            (csrf_token (self s) <> None -> csrf_token (self (final t)) <> None) /\
            (cookies (self s) <> None -> cookies (self (final t)) <> None)).
  { intros t T.
    destruct T as [msg EA | auth msg w EA ER | auth r w EA ER ET | auth r w H];
      cbn [final self]; try (split; intros; assumption).
    destruct H as (_ & _ & ET). unfold store_token. cbn [csrf_token cookies]. split.
    - intros _. destruct (Headers.get "x-csrf-token" (headers r)); [discriminate|].
      discriminate ET.
    - intros Hc. destruct (Headers.get_all "Set-Cookie" (headers r));
        [assumption | discriminate]. }
  assert (Hfst : forall t e rest, token_run s t -> trace t = e :: rest ->
            rest = [] /\ method (fst e) = GET /\
            req_headers (fst e) !! "x-csrf-token" = Some (Some "fetch")).
  { intros t e rest T Ht. destruct (token_run_trace s t T) as [E | (auth & out & E)];
      rewrite E in Ht; [discriminate|].
    injection Ht as <- <-. cbn [fst].
    split; [reflexivity|]. split; [reflexivity|]. apply token_request_fetch. }
  assert (Hself : self (final (remove_delivery_block order_id reason s))
                  = self (final (get_csrf_token s))).
  { pose proof (update_spec order_id reason s) as U.
    remember (remove_delivery_block order_id reason s) as run eqn:Erun.
    destruct U as [t T Hv | auth r1 w1 msg w2 H | auth r1 w1 r2 w2 H E2 Hne
                  | auth r1 w1 r2 w2 msg w3 H E2 H200 E3
                  | auth r1 w1 r2 w2 r3 w3 H E2 H200 E3];
      try (rewrite (token_hit_run s _ _ _ H); reflexivity).
    rewrite (token_run_unique s t T). reflexivity. }
  split; [exact Hself|].
  split; [|split; [|split; [|split]]].
  - rewrite read_sales_order_run. destruct (basic_auth _); [|reflexivity].
    cbv zeta. destruct (http_request _ _) as [[r|msg] w]; reflexivity.
  - rewrite test_connection_run. destruct (basic_auth _); [|reflexivity].
    cbv zeta. destruct (http_request _ _) as [[r|msg] w]; reflexivity.
  - rewrite Hself. apply (Hkeep _ (token_spec s)).
  - rewrite Hself. apply (Hkeep _ (token_spec s)).
  - intros e rest Ht.
    assert (Hpre : exists rest', trace (get_csrf_token s) = e :: rest').
    { pose proof (update_spec order_id reason s) as U.
      remember (remove_delivery_block order_id reason s) as run eqn:Erun.
      destruct U as [t T Hv | auth r1 w1 msg w2 H | auth r1 w1 r2 w2 H E2 Hne
                    | auth r1 w1 r2 w2 msg w3 H E2 H200 E3
                    | auth r1 w1 r2 w2 r3 w3 H E2 H200 E3];
        try (rewrite (token_hit_run s _ _ _ H); cbn [trace] in *;
             injection Ht as <- _; eauto).
      cbn [trace] in Ht. rewrite (token_run_unique s t T), Ht. eauto. }
    destruct Hpre as [rest' Hpre].
    destruct (Hfst _ e rest' (token_spec s) Hpre) as (-> & Hm & Hf).
    repeat split; assumption.
Qed.

Lemma token_state_set_only_by_acquisition_witness :
  csrf_token (self (final (remove_delivery_block "4353" "approved"
                             Scenario.denied_with_cache))) <> None.
Proof.
  apply (proj1 (proj2 (proj2 (proj2
           (token_state_set_only_by_acquisition "4353" "approved"
              Scenario.denied_with_cache))))).
  discriminate.
Defined.

(** C7 as stated fails: a PATCH answered with 403 leaves the cached token in
    place. *)
Lemma token_not_cleared_counterexample :
  ~ (forall (P : Platform) (order_id reason : string) (s : Sys)
       (rq : Request) (r : Response),
       In (rq, Ok r) (trace (remove_delivery_block order_id reason s)) ->
       status r = 403%Z ->
       csrf_token (self (final (remove_delivery_block order_id reason s))) = None).
Proof.
  intros H.
  specialize (H Scripted.platform "4353" "approved" Scenario.expired
                (patch_request (store_token Scripted.token_ok (init Scripted.cfg))
                   "Basic ACCAPI:secret" "4353" (Some "W/abc123"))
                Scripted.patch_403).
  assert (E : csrf_token (self (final (remove_delivery_block "4353" "approved"
                                         Scenario.expired))) = Some "T0k3n")
    by (vm_compute; reflexivity).
  rewrite E in H.
  assert (Some "T0k3n" = None) as Habs.
  { apply H; [|reflexivity]. vm_compute. right. right. left. reflexivity. }
  discriminate Habs.
Qed.

(** ** The payload of the write *)

Lemma classify_write_reason `{P : Platform} (order_id reason reason' : string)
    (r : Response) :
  classify_write order_id reason' r
    = with_reason reason' (classify_write order_id reason r).
Proof.
  unfold classify_write. destruct (_ || _); [reflexivity|].
  destruct (decode _); reflexivity.
Qed.

(** C8.  Every PATCH of [remove_delivery_block] has the body
    [{"DeliveryBlockReason": ""}], whatever the order read before holds and
    whatever [reason] is.  Called with another [reason] from the same state,
    the update makes the same calls and leaves the same state; the result
    differs in the [reason] entry of a success and in nothing else. *)
Theorem payload_fixed `{P : Platform} (order_id reason reason' : string) (s : Sys) :
  let run := remove_delivery_block order_id reason s in
  let run' := remove_delivery_block order_id reason' s in
  (forall rq out,
     In (rq, out) (trace run) -> method rq = PATCH ->
     body rq = Some ("{" +:+ PyStr.dquote +:+ "DeliveryBlockReason" +:+ PyStr.dquote
                     +:+ ": " +:+ PyStr.dquote +:+ PyStr.dquote +:+ "}")) /\
  trace run' = trace run /\
  final run' = final run /\
  value run' = with_reason reason' (value run).
Proof.
  cbv zeta. split.
  - intros rq out Hin Hm. pose proof (update_spec order_id reason s) as U.
    remember (remove_delivery_block order_id reason s) as run eqn:Erun.
    destruct U as [t T Hv | auth r1 w1 msg w2 H | auth r1 w1 r2 w2 H E2 Hne
                  | auth r1 w1 r2 w2 msg w3 H E2 H200 E3
                  | auth r1 w1 r2 w2 r3 w3 H E2 H200 E3]; cbn [trace] in Hin.
    + exfalso. destruct (token_run_trace s t T) as [E | (auth & o & E)];
        rewrite E in Hin; cbn in Hin; [contradiction|].
      destruct Hin as [Hin|[]]. injection Hin as <- _. discriminate.
    + destruct Hin as [Hin|[Hin|[]]]; injection Hin as <- _; discriminate.
    + destruct Hin as [Hin|[Hin|[]]]; injection Hin as <- _; discriminate.
    + destruct Hin as [Hin|[Hin|[Hin|[]]]]; injection Hin as <- _;
        try discriminate. reflexivity.
    + destruct Hin as [Hin|[Hin|[Hin|[]]]]; injection Hin as <- _;
        try discriminate. reflexivity.
  - rewrite !remove_delivery_block_run. cbv zeta.
    destruct (value (get_csrf_token s)) as [[|]|msg]; try (repeat split; reflexivity).
    destruct (basic_auth _); [|repeat split; reflexivity].
    destruct (http_request _ _) as [[r2|msg] w2]; [|repeat split; reflexivity].
    destruct (status r2 =? 200)%Z; [|repeat split; reflexivity].
    destruct (http_request w2 _) as [[r3|msg] w3]; [|repeat split; reflexivity].
    cbn [trace final value]. split; [reflexivity|]. split; [reflexivity|].
    apply classify_write_reason.
Qed.

Lemma payload_fixed_witness :
  body (patch_request (store_token Scripted.token_ok (init Scripted.cfg))
          "Basic ACCAPI:secret" "4353" (Some "W/abc123"))
    = Some ("{" +:+ PyStr.dquote +:+ "DeliveryBlockReason" +:+ PyStr.dquote
            +:+ ": " +:+ PyStr.dquote +:+ PyStr.dquote +:+ "}").
Proof.
  apply (proj1 (payload_fixed "4353" "approved" "other" Scenario.happy)
           _ (Ok Scripted.patch_204)).
  - vm_compute. right. right. left. reflexivity.
  - reflexivity.
Defined.

(** * Further properties of the service

    ** The update, call by call *)


Lemma classify_write_returns `{P : Platform} (order_id reason : string) (r : Response) :
  exists v, classify_write order_id reason r = Ok v.
Proof.
  unfold classify_write. destruct (_ || _); [eauto|].
  destruct (decode _); eauto.
Qed.

(** X1.  [remove_delivery_block] never raises.  It makes at most three calls,
    and a PATCH, if there is one, is the third and last of them: a rejected
    write is not sent again. *)
Theorem update_makes_at_most_three_calls `{P : Platform} (order_id reason : string) (s : Sys) :
  let run := remove_delivery_block order_id reason s in
  (exists v, value run = Ok v) /\
  length (trace run) <= 3 /\
  length (patches run) <= 1 /\
  (forall i e, nth_error (trace run) i = Some e -> is_patch e = true ->
     i = 2 /\ length (trace run) = 3).
Proof.
  cbv zeta. pose proof (update_spec order_id reason s) as U. unfold patches.
  remember (remove_delivery_block order_id reason s) as run eqn:Erun.
  destruct U as [t T Hv | auth r1 w1 msg w2 H | auth r1 w1 r2 w2 H E2 Hne
                | auth r1 w1 r2 w2 msg w3 H E2 H200 E3
                | auth r1 w1 r2 w2 r3 w3 H E2 H200 E3]; cbn [trace value].
  - split; [eauto|]. rewrite (token_run_no_patch s t T).
    destruct (token_run_trace s t T) as [E | (auth & out & E)]; rewrite E; cbn;
      (split; [lia|]; split; [lia|]).
    + intros [|i] e; discriminate.
    + intros [|[|i]] e Hn Hp; try discriminate.
      injection Hn as <-. discriminate.
  - split; [eauto|]. cbn. split; [lia|]. split; [lia|].
    intros [|[|[|i]]] e Hn Hp; try discriminate; injection Hn as <-; discriminate.
  - split; [eauto|]. cbn. split; [lia|]. split; [lia|].
    intros [|[|[|i]]] e Hn Hp; try discriminate; injection Hn as <-; discriminate.
  - split; [eauto|]. cbn. split; [lia|]. split; [lia|].
    intros [|[|[|[|i]]]] e Hn Hp; try discriminate;
      try (injection Hn as <-; discriminate). split; reflexivity.
  - split; [apply classify_write_returns|]. cbn. split; [lia|]. split; [lia|].
    intros [|[|[|[|i]]]] e Hn Hp; try discriminate;
      try (injection Hn as <-; discriminate). split; reflexivity.
Qed.

Lemma update_makes_at_most_three_calls_witness :
  length (trace (remove_delivery_block "4353" "approved" Scenario.stale)) = 3.
Proof.
  apply (proj2 (proj2 (proj2
           (update_makes_at_most_three_calls "4353" "approved" Scenario.stale))) 2
           (patch_request (store_token Scripted.token_ok (init Scripted.cfg))
              "Basic ACCAPI:secret" "4353" (Some "W/abc123"), Ok Scripted.patch_412)).
  - vm_compute. reflexivity.
  - reflexivity.
Defined.

(** X2.  The update reports success exactly when its PATCH was answered with
    status 200 or 204; the message then names the order id as the caller
    gave it, not the cleaned id the request was sent for. *)
Theorem success_iff_patch_accepted `{P : Platform} (order_id reason : string) (s : Sys) :
  let run := remove_delivery_block order_id reason s in
  ((exists m r, value run = Ok (Removed m r)) <->
   (exists e1 e2 rq3 r3,
      trace run = [e1; e2; (rq3, Ok r3)] /\
      (status r3 = 200%Z \/ status r3 = 204%Z))) /\
  (forall m r, value run = Ok (Removed m r) ->
     m = "Delivery block removed from order " +:+ order_id /\ r = reason).
Proof.
  cbv zeta. pose proof (update_spec order_id reason s) as U.
  remember (remove_delivery_block order_id reason s) as run eqn:Erun.
  destruct U as [t T Hv | auth r1 w1 msg w2 H | auth r1 w1 r2 w2 H E2 Hne
                | auth r1 w1 r2 w2 msg w3 H E2 H200 E3
                | auth r1 w1 r2 w2 r3 w3 H E2 H200 E3]; cbn [trace value].
  - split; [split|].
    + intros (m & r & E). discriminate.
    + intros (e1 & e2 & rq3 & r3 & E & _).
      destruct (token_run_trace s t T) as [E' | (auth & out & E')];
        rewrite E' in E; discriminate.
    + intros m r E. discriminate.
  - split; [split|]; [intros (m & r & E) | intros (e1 & e2 & rq3 & r3 & E & _)
                      | intros m r E]; discriminate.
  - split; [split|]; [intros (m & r & E) | intros (e1 & e2 & rq3 & r3 & E & _)
                      | intros m r E]; discriminate.
  - split; [split|]; [intros (m & r & E) | intros (e1 & e2 & rq3 & r3 & E & _)
                      | intros m r E]; discriminate.
  - unfold classify_write.
    destruct (status r3 =? 200)%Z eqn:E200; [apply Z.eqb_eq in E200|apply Z.eqb_neq in E200];
    (destruct (status r3 =? 204)%Z eqn:E204; [apply Z.eqb_eq in E204|apply Z.eqb_neq in E204]);
      cbn [orb].
    + split; [split|].
      * intros _. do 4 eexists. split; [reflexivity|]. left. assumption.
      * intros _. eauto.
      * intros m r E. injection E as <- <-. split; reflexivity.
    + split; [split|].
      * intros _. do 4 eexists. split; [reflexivity|]. left. assumption.
      * intros _. eauto.
      * intros m r E. injection E as <- <-. split; reflexivity.
    + split; [split|].
      * intros _. do 4 eexists. split; [reflexivity|]. right. assumption.
      * intros _. eauto.
      * intros m r E. injection E as <- <-. split; reflexivity.
    + split; [split|].
      * intros (m & r & E). destruct (decode _); discriminate.
      * intros (e1 & e2 & rq3 & r3' & E & Hs). injection E as <- <- <- <-.
        destruct Hs; contradiction.
      * intros m r E. destruct (decode _); discriminate.
Qed.

Lemma success_iff_patch_accepted_witness :
  exists m r,
    value (remove_delivery_block "SO4353" "approved" Scenario.happy)
      = Ok (Removed m r).
Proof.
  apply (proj2 (proj1 (success_iff_patch_accepted "SO4353" "approved" Scenario.happy))).
  exists (token_request Scripted.cfg "Basic ACCAPI:secret", Ok Scripted.token_ok),
    (etag_request Scripted.cfg "Basic ACCAPI:secret" "SO4353", Ok Scripted.read_stamped),
    (patch_request (store_token Scripted.token_ok (init Scripted.cfg))
       "Basic ACCAPI:secret" "SO4353" (Some "W/abc123")),
    Scripted.patch_204.
  split; [vm_compute; reflexivity | right; reflexivity].
Defined.

(** X3.  A PATCH answered with a status other than 200 and 204 and a body that
    is well-formed UTF-8 is reported as a failure whose text holds the status
    and the body. *)
Theorem rejection_reports_status_and_body `{P : Platform} (order_id reason : string) (s : Sys)
    (e1 e2 : Event) (rq3 : Request) (r3 : Response) :
  trace (remove_delivery_block order_id reason s) = [e1; e2; (rq3, Ok r3)] ->
  status r3 <> 200%Z -> status r3 <> 204%Z ->
  Utf8.valid (data r3) = true ->
  value (remove_delivery_block order_id reason s)
    = Ok (WriteRejected (status r3) (data r3)).
Proof.
  intros Ht H200 H204 Hvalid. pose proof (update_spec order_id reason s) as U.
  remember (remove_delivery_block order_id reason s) as run eqn:Erun.
  destruct U as [t T Hv | auth r1 w1 msg w2 H | auth r1 w1 r2 w2 H E2 Hne
                | auth r1 w1 r2 w2 msg w3 H E2 H200' E3
                | auth r1 w1 r2 w2 r3' w3 H E2 H200' E3]; cbn [trace value] in *;
    try discriminate.
  - destruct (token_run_trace s t T) as [E | (auth & out & E)];
      rewrite E in Ht; discriminate.
  - injection Ht as _ _ _ <-. unfold classify_write, decode.
    apply Z.eqb_neq in H200, H204. rewrite H200, H204, Hvalid. reflexivity.
Qed.

Lemma rejection_reports_status_and_body_witness :
  value (remove_delivery_block "4353" "approved" Scenario.stale)
    = Ok (Failed "Update failed: 412 - precondition failed").
Proof.
  apply (rejection_reports_status_and_body "4353" "approved" Scenario.stale
           (token_request Scripted.cfg "Basic ACCAPI:secret", Ok Scripted.token_ok)
           (etag_request Scripted.cfg "Basic ACCAPI:secret" "4353",
            Ok Scripted.read_stamped)
           (patch_request (store_token Scripted.token_ok (init Scripted.cfg))
              "Basic ACCAPI:secret" "4353" (Some "W/abc123"))
           Scripted.patch_412).
  - vm_compute. reflexivity.
  - discriminate.
  - discriminate.
  - reflexivity.
Defined.

(** X4.  When a call raises, the update ends with it.  An exception in the
    token fetch is reported as the token failure and its message is lost; an
    exception in the read or in the write is reported with its message. *)
Theorem transport_failure_reported `{P : Platform} (order_id reason : string) (s : Sys)
    (pre : list Event) (rq : Request) (msg : string) :
  trace (remove_delivery_block order_id reason s) = (pre ++ [(rq, Raise msg)])%list ->
  (pre = [] /\ value (remove_delivery_block order_id reason s) = Ok TokenError) \/
  (pre <> [] /\ value (remove_delivery_block order_id reason s) = Ok (Failed msg)).
Proof.
  intros Ht. pose proof (update_spec order_id reason s) as U.
  remember (remove_delivery_block order_id reason s) as run eqn:Erun.
  destruct U as [t T Hv | auth r1 w1 msg' w2 H | auth r1 w1 r2 w2 H E2 Hne
                | auth r1 w1 r2 w2 msg' w3 H E2 H200 E3
                | auth r1 w1 r2 w2 r3 w3 H E2 H200 E3]; cbn [trace value] in *.
  - left. split; [|reflexivity].
    destruct (token_run_trace s t T) as [E | (auth & out & E)]; rewrite E in Ht.
    + destruct pre; discriminate.
    + destruct pre as [|x pre]; [reflexivity|].
      destruct pre; discriminate.
  - right. destruct pre as [|x [|y pre]]; try discriminate.
    + injection Ht as _ _ <-. split; [discriminate | reflexivity].
    + destruct pre; discriminate.
  - exfalso. destruct pre as [|x [|y pre]]; try discriminate.
    destruct pre; discriminate.
  - right. destruct pre as [|x [|y [|z pre]]]; try discriminate.
    + injection Ht as _ _ _ <-. split; [discriminate | reflexivity].
    + destruct pre; discriminate.
  - exfalso. destruct pre as [|x [|y [|z pre]]]; try discriminate.
    destruct pre; discriminate.
Qed.


Lemma transport_failure_reported_witness :
  value (remove_delivery_block "4353" "approved" (Scripted.fresh [Ok Scripted.token_ok]))
    = Ok (Failed "connection refused").
Proof.
  destruct (transport_failure_reported "4353" "approved"
              (Scripted.fresh [Ok Scripted.token_ok])
              [(token_request Scripted.cfg "Basic ACCAPI:secret", Ok Scripted.token_ok)]
              (etag_request Scripted.cfg "Basic ACCAPI:secret" "4353")
              "connection refused") as [[H _] | [_ H]].
  - vm_compute. reflexivity.
  - discriminate H.
  - exact H.
Defined.

(** ** What the calls carry *)



(** X6.  When the token response sets no cookie, the PATCH is sent with the
    cookie string that was cached before the call, stale as it may be; on a
    service that never stored one its [Cookie] entry is Python's [None]. *)
Theorem patch_sends_cached_cookie `{P : Platform} (order_id reason : string) (s : Sys)
    (rq1 rq3 : Request) (r1 : Response) (e2 : Event) (out3 : exc Response) :
  trace (remove_delivery_block order_id reason s)
    = [(rq1, Ok r1); e2; (rq3, out3)] ->
  Headers.get_all "Set-Cookie" (headers r1) = [] ->
  req_headers rq3 !! "Cookie" = Some (cookies (self s)).
Proof.
  intros Ht Hc. pose proof (update_spec order_id reason s) as U.
  remember (remove_delivery_block order_id reason s) as run eqn:Erun.
  assert (Hp : forall auth r2,
            PyStr.truthy (Headers.get "x-csrf-token" (headers r1)) = true ->
            req_headers (patch_request (store_token r1 (self s)) auth order_id
                           (etag_of r2)) !! "Cookie" = Some (cookies (self s))).
  { intros auth r2 ET.
    destruct (patch_credentials (store_token r1 (self s)) auth order_id (etag_of r2))
      as [_ Hk]; [exact ET|].
    rewrite Hk. unfold store_token. cbn [cookies]. rewrite Hc. reflexivity. }
  destruct U as [t T Hv | auth r1' w1 msg w2 H | auth r1' w1 r2 w2 H E2 Hne
                | auth r1' w1 r2 w2 msg w3 H E2 H200 E3
                | auth r1' w1 r2 w2 r3 w3 H E2 H200 E3]; cbn [trace] in Ht;
    try discriminate.
  - destruct (token_run_trace s t T) as [E | (auth & out & E)];
      rewrite E in Ht; discriminate.
  - injection Ht as _ <- _ <- _. destruct H as (_ & _ & ET). now apply (Hp auth r2).
  - injection Ht as _ <- _ <- _. destruct H as (_ & _ & ET). now apply (Hp auth r2).
Qed.

Lemma patch_sends_cached_cookie_witness :
  req_headers
    (patch_request (store_token Scripted.token_403_with_token (init Scripted.cfg))
       "Basic ACCAPI:secret" "4353" (Some "W/abc123")) !! "Cookie" = Some None.
Proof.
  apply (patch_sends_cached_cookie "4353" "approved" Scenario.forbidden_with_token
           (token_request Scripted.cfg "Basic ACCAPI:secret")
           _ Scripted.token_403_with_token
           (etag_request Scripted.cfg "Basic ACCAPI:secret" "4353",
            Ok Scripted.read_stamped)
           (Ok Scripted.patch_204)).
  - vm_compute. reflexivity.
  - reflexivity.
Defined.

(** X7.  A token acquisition that returns [False] leaves the service object
    exactly as it was, the token and cookies of an earlier acquisition
    included; and no acquisition ever changes the configuration. *)
Theorem failed_acquisition_keeps_service `{P : Platform} (s : Sys) :
  (value (get_csrf_token s) = Ok false -> self (final (get_csrf_token s)) = self s) /\
  config (self (final (get_csrf_token s))) = config (self s).
Proof.
  pose proof (token_spec s) as T.
  remember (get_csrf_token s) as tok eqn:Etok.
  destruct T as [msg EA | auth msg w EA ER | auth r w EA ER ET | auth r w H];
    cbn [value final self]; split; try reflexivity.
  discriminate.
Qed.

Lemma failed_acquisition_keeps_service_witness :
  self (final (get_csrf_token Scenario.denied_with_cache)) = Scenario.cached.
Proof.
  apply (proj1 (failed_acquisition_keeps_service Scenario.denied_with_cache)).
  vm_compute. reflexivity.
Defined.

(** ** Reads and connection tests *)

(** X8.  [read_sales_order] never raises and makes at most one call, a GET.
    It returns the order data only for a response with status 200; any other
    status, 2xx included, is reported as "Order not found" with the status,
    and an exception of the call is reported with its message. *)
Theorem read_sales_order_outcomes `{P : Platform} (order_id : string) (s : Sys) :
  let run := read_sales_order order_id s in
  (exists v, value run = Ok v) /\
  length (trace run) <= 1 /\
  patches run = [] /\
  (forall d, value run = Ok (OrderData d) ->
     exists rq r, trace run = [(rq, Ok r)] /\ status r = 200%Z) /\
  (forall rq r, trace run = [(rq, Ok r)] -> status r <> 200%Z ->
     value run = Ok (ReadFailed ("Order not found: " +:+ PyStr.str_int (status r)))) /\
  (forall rq msg, trace run = [(rq, Raise msg)] -> value run = Ok (ReadFailed msg)).
Proof.
  cbv zeta. unfold patches. rewrite read_sales_order_run.
  destruct (basic_auth _) as [auth|msg]; cbv zeta.
  - destruct (http_request _ _) as [[r|msg] w]; cbn [value trace].
    + split; [eauto|]. split; [cbn; lia|]. split; [reflexivity|].
      split; [|split].
      * intros d Hd. exists (read_request (config (self s)) auth order_id), r.
        split; [reflexivity|]. injection Hd as Hd. unfold classify_read in Hd.
        destruct (status r =? 200)%Z eqn:E; [now apply Z.eqb_eq|discriminate].
      * intros rq r' Ht Hs. injection Ht as _ <-. unfold classify_read.
        apply Z.eqb_neq in Hs. rewrite Hs. reflexivity.
      * intros rq msg Ht. discriminate.
    + split; [eauto|]. split; [cbn; lia|]. split; [reflexivity|].
      split; [|split].
      * intros d Hd. discriminate.
      * intros rq r Ht. discriminate.
      * intros rq msg' Ht. injection Ht as _ <-. reflexivity.
  - cbn [value trace]. split; [eauto|]. split; [cbn; lia|]. split; [reflexivity|].
    split; [|split]; [intros d Hd | intros rq r Ht | intros rq msg' Ht]; discriminate.
Qed.

Lemma read_sales_order_outcomes_witness :
  value (read_sales_order "SO4353" (Scripted.fresh [Ok Scripted.patch_204]))
    = Ok (ReadFailed "Order not found: 204").
Proof.
  apply (proj1 (proj2 (proj2 (proj2 (proj2
           (read_sales_order_outcomes "SO4353"
              (Scripted.fresh [Ok Scripted.patch_204]))))))
           (read_request Scripted.cfg "Basic ACCAPI:secret" "SO4353")
           Scripted.patch_204).
  - vm_compute. reflexivity.
  - discriminate.
Defined.



(** ** Ids and lists that pass through unchanged *)

Lemma space_width_no_lead (c : ascii) (r : string) :
  Chars.is_space_lead c = false -> PyStr.space_width (String c r) = 0.
Proof.
  destruct c as [[] [] [] [] [] [] [] []]; intros H; vm_compute in H;
    try discriminate H; reflexivity.
Qed.

Lemma lstrip_no_lead (c : ascii) (r : string) :
  Chars.is_space_lead c = false -> PyStr.lstrip (String c r) = String c r.
Proof.
  intros H. unfold PyStr.lstrip. cbn [PyStr.lstrip_from].
  now rewrite (space_width_no_lead c r H).
Qed.

Lemma rstrip_spaceless (s : string) :
  Chars.spaceless s = true -> PyStr.rstrip s = s.
Proof.
  induction s as [|c s IH]; [reflexivity|].
  unfold Chars.spaceless. cbn [Chars.all]. intros H.
  apply andb_prop in H as [Hc Hs]. apply negb_true_iff in Hc.
  cbn [PyStr.rstrip]. unfold PyStr.isspace_all.
  rewrite (lstrip_no_lead c s Hc). now rewrite (IH Hs).
Qed.

(** Text without whitespace is left alone by [strip]. *)
Lemma strip_spaceless (s : string) :
  Chars.spaceless s = true -> PyStr.strip s = s.
Proof.
  intros H. unfold PyStr.strip.
  assert (E : PyStr.lstrip s = s).
  { destruct s as [|c r]; [reflexivity|].
    unfold Chars.spaceless in H. cbn [Chars.all] in H.
    apply andb_prop in H as [Hc _]. apply negb_true_iff in Hc.
    now apply lstrip_no_lead. }
  rewrite E. now apply rstrip_spaceless.
Qed.

Lemma replace_SO_without_S (s : string) :
  Chars.all (fun c => negb (Ascii.eqb c "S")) s = true ->
  PyStr.replace "SO" "" s = s.
Proof.
  induction s as [|c s IH]; [reflexivity|].
  cbn [Chars.all]. intros H. apply andb_prop in H as [Hc Hs].
  rewrite replace_SO_step.
  assert (E : PyStr.starts_with "SO" (String c s) = false).
  { cbn [PyStr.starts_with]. apply negb_true_iff in Hc.
    rewrite Ascii.eqb_sym, Hc. reflexivity. }
  rewrite E, (IH Hs). reflexivity.
Qed.

Lemma all_impl (f g : ascii -> bool) (s : string) :
  (forall c, f c = true -> g c = true) ->
  Chars.all f s = true -> Chars.all g s = true.
Proof.
  intros Hfg. induction s as [|c s IH]; [reflexivity|].
  cbn [Chars.all]. intros H. apply andb_prop in H as [Hc Hs].
  now rewrite (Hfg c Hc), (IH Hs).
Qed.

Lemma digit_inert (c : ascii) :
  Chars.is_digit c = true ->
  negb (Ascii.eqb c "S") = true /\ negb (Chars.is_space_lead c) = true.
Proof.
  destruct c as [[] [] [] [] [] [] [] []]; intros H; vm_compute in H;
    try discriminate H; split; reflexivity.
Qed.

(** X10.  An order id made of decimal digits only is used as it is: cleaning
    it changes nothing, so the order addressed is the one named. *)
Theorem numeric_id_unchanged (order_id : string) :
  Chars.all Chars.is_digit order_id = true ->
  clean_order_id order_id = order_id.
Proof.
  intros H. unfold clean_order_id.
  rewrite replace_SO_without_S
    by (apply (all_impl Chars.is_digit); [apply digit_inert | exact H]).
  apply strip_spaceless. unfold Chars.spaceless.
  apply (all_impl Chars.is_digit); [apply digit_inert | exact H].
Qed.

Lemma numeric_id_unchanged_witness : clean_order_id "0000004353" = "0000004353".
Proof. apply (numeric_id_unchanged "0000004353"). reflexivity. Defined.





(** * Generic queries and the tools built on them *)

Lemma append_cons (c : ascii) (a b : string) :
  String c a +:+ b = String c (a +:+ b).
Proof. reflexivity. Qed.

Lemma append_assoc (a b c : string) : (a +:+ b) +:+ c = a +:+ (b +:+ c).
Proof.
  induction a as [|x a IH]; [reflexivity|].
  rewrite !append_cons. f_equal. exact IH.
Qed.

Lemma append_cancel_l (a x y : string) : a +:+ x = a +:+ y -> x = y.
Proof.
  induction a as [|c a IH]; intros H; [exact H|].
  rewrite !append_cons in H. injection H as H. auto.
Qed.

Lemma append_cancel_r (b x y : string) : x +:+ b = y +:+ b -> x = y.
Proof.
  revert y. induction x as [|c x IH]; intros y H.
  - destruct y as [|d y]; [reflexivity|].
    apply (f_equal String.length) in H.
    rewrite !length_append in H. cbn [String.length] in H. lia.
  - destruct y as [|d y].
    + apply (f_equal String.length) in H.
      rewrite !length_append in H. cbn [String.length] in H. lia.
    + rewrite !append_cons in H. injection H as -> H. f_equal. auto.
Qed.

Section QueryRuns.
Context `{P : Platform}.

Lemma execute_odata_query_run (entity_set : string) (key_value : option string)
    (expand select : option (list string)) (s : Sys) :
  execute_odata_query entity_set key_value expand select s =
  match basic_auth (credentials (config (self s))) with
  | Raise msg => mkRun (Ok (QueryFailed msg)) s []
  | Ok auth =>
      let rq := query_request (config (self s)) auth entity_set key_value
                  expand select in
      match http_request (world s) rq with
      | (Raise msg, w) =>
          mkRun (Ok (QueryFailed msg)) (mkSys (self s) w) [(rq, Raise msg)]
      | (Ok r, w) => mkRun (Ok (classify_query r)) (mkSys (self s) w) [(rq, Ok r)]
      end
  end.
Proof.
  unfold execute_odata_query, try_except, bind, get_self, query_request,
    classify_query.
  cbn [value final trace self]. rewrite get_headers_run.
  destruct (basic_auth _) as [auth|msg]; cbn [value final trace app];
    [|reflexivity].
  unfold request. cbn [self world].
  destruct (http_request _ _) as [[r|msg] w]; cbn [value final trace app];
    [|reflexivity].
  destruct (status r =? 200)%Z; cbn [value final trace app]; [|reflexivity].
  unfold lift. cbn [value final trace app].
  destruct (decode _); cbn [value final trace app]; [|reflexivity].
  destruct (json_loads _); cbn [value final trace app]; [|reflexivity].
  destruct (json_get_d _); reflexivity.
Qed.

Lemma query_run_cases (entity_set : string) (key_value : option string)
    (expand select : option (list string)) (s : Sys) :
  let run := execute_odata_query entity_set key_value expand select s in
  (exists v, value run = Ok v) /\
  self (final run) = self s /\
  (trace run = [] \/
   exists auth out,
     trace run = [(query_request (config (self s)) auth entity_set key_value
                     expand select, out)] /\
     match out with
     | Ok r => value run = Ok (classify_query r)
     | Raise msg => value run = Ok (QueryFailed msg)
     end).
Proof.
  cbv zeta. rewrite execute_odata_query_run.
  destruct (basic_auth _) as [auth|msg]; [|eauto].
  cbv zeta. destruct (http_request _ _) as [[r|msg] w]; cbn [value final trace self].
  - split; [eauto|]. split; [reflexivity|]. right. do 2 eexists.
    split; [reflexivity|]. reflexivity.
  - split; [eauto|]. split; [reflexivity|]. right. do 2 eexists.
    split; [reflexivity|]. reflexivity.
Qed.



End QueryRuns.

(** X11.  [execute_odata_query] never raises, makes at most one call, a GET
    with the basic headers, and leaves the service object as it was.  It
    returns data only for a response with status 200; any other status is
    reported as "Query failed" with the status. *)
Theorem query_only_reads `{P : Platform} (entity_set : string)
    (key_value : option string) (expand select : option (list string)) (s : Sys) :
  let run := execute_odata_query entity_set key_value expand select s in
  (exists v, value run = Ok v) /\
  length (trace run) <= 1 /\
  patches run = [] /\
  self (final run) = self s /\
  (forall d, value run = Ok (QueryData d) ->
     exists rq r, trace run = [(rq, Ok r)] /\ status r = 200%Z) /\
  (forall rq r, trace run = [(rq, Ok r)] -> status r <> 200%Z ->
     value run = Ok (QueryFailed ("Query failed: " +:+ PyStr.str_int (status r)))).
Proof.
  cbv zeta. unfold patches.
  destruct (query_run_cases entity_set key_value expand select s)
    as (Hv & Hs & [Ht | (auth & out & Ht & Ho)]); rewrite Ht.
  - split; [exact Hv|]. split; [cbn; lia|]. split; [reflexivity|].
    split; [exact Hs|]. split.
    + intros d Hd. exfalso. revert Hd Ht. rewrite execute_odata_query_run.
      destruct (basic_auth _); [|discriminate]. cbv zeta.
      destruct (http_request _ _) as [[r|msg] w]; discriminate.
    + intros rq r E. discriminate.
  - split; [exact Hv|]. split; [cbn; lia|]. split; [reflexivity|].
    split; [exact Hs|]. split.
    + intros d Hd. destruct out as [r|msg]; rewrite Ho in Hd; [|discriminate].
      do 2 eexists. split; [reflexivity|]. injection Hd as Hd.
      unfold classify_query in Hd.
      destruct (status r =? 200)%Z eqn:E; [now apply Z.eqb_eq | discriminate].
    + intros rq r E Hne. injection E as _ ->. rewrite Ho. unfold classify_query.
      apply Z.eqb_neq in Hne. now rewrite Hne.
Qed.

Lemma query_only_reads_witness :
  value (execute_odata_query "A_SalesOrder" (Some "4353") None None
           (Scripted.fresh [Ok Scripted.read_404]))
    = Ok (QueryFailed "Query failed: 404").
Proof.
  apply (proj2 (proj2 (proj2 (proj2 (proj2
           (query_only_reads "A_SalesOrder" (Some "4353") None None
              (Scripted.fresh [Ok Scripted.read_404]))))))
           (query_request Scripted.cfg "Basic ACCAPI:secret" "A_SalesOrder"
              (Some "4353") None None)
           Scripted.read_404).
  - vm_compute. reflexivity.
  - discriminate.
Defined.

(** X12.  The URL of a query always ends in [$format=json] after a [?]: the
    key segment is left out when the key is [None] or empty, so that the whole
    entity set is queried, and an expand or select list that is [None] or
    empty adds no parameter. *)
Theorem query_url_shape (cfg : SAPConfig) (entity_set : string)
    (key_value : option string) (expand select : option (list string)) :
  query_url cfg entity_set key_value expand select =
  base_url cfg +:+ service_root +:+ entity_set
  +:+ (if PyStr.truthy key_value
       then "('" +:+ default EmptyString key_value +:+ "')" else EmptyString)
  +:+ "?"
  +:+ (if PyList.truthy expand
       then "$expand=" +:+ PyStr.join "," (default [] expand) +:+ "&" else EmptyString)
  +:+ (if PyList.truthy select
       then "$select=" +:+ PyStr.join "," (default [] select) +:+ "&" else EmptyString)
  +:+ "$format=json".
Proof.
  unfold query_url.
  destruct (PyStr.truthy key_value), (PyList.truthy expand), (PyList.truthy select);
    cbn [app PyStr.join String.concat];
    rewrite ?append_assoc; reflexivity.
Qed.





(** * Plain reads with query parameters *)

Lemma make_sap_request_run `{P : Platform} (entity_name : string)
    (params : option (list (string * string))) (s : Sys) :
  Intelligent.make_sap_request entity_name params s =
  let rq := mkRequest GET (Intelligent.request_url entity_name params) None
              Intelligent.request_headers in
  match http_request (world s) rq with
  | (Raise msg, w) =>
      mkRun (Ok (Intelligent.ErrorDict ("Request failed: " +:+ msg)))
        (mkSys (self s) w) [(rq, Raise msg)]
  | (Ok r, w) =>
      mkRun
        (Ok (match decode (data r) with
             | Raise msg => Intelligent.ErrorDict ("Request failed: " +:+ msg)
             | Ok text =>
                 if (status r =? 200)%Z
                 then match json_loads text with
                      | Ok v => Intelligent.Parsed v
                      | Raise msg => Intelligent.ErrorDict ("Request failed: " +:+ msg)
                      end
                 else Intelligent.ErrorDict
                        ("HTTP " +:+ PyStr.str_int (status r) +:+ ": " +:+ text)
             end))
        (mkSys (self s) w) [(rq, Ok r)]
  end.
Proof.
  unfold Intelligent.make_sap_request, try_except, bind, request, lift, ret.
  cbv zeta. cbn [value final trace self world].
  destruct (http_request _ _) as [[r|msg] w]; cbn [value final trace app];
    [|reflexivity].
  destruct (status r =? 200)%Z; cbn [value final trace app].
  - destruct (decode _); cbn [value final trace app]; [|reflexivity].
    destruct (json_loads _); reflexivity.
  - destruct (decode _); reflexivity.
Qed.

(** X15.  [make_sap_request] never raises and makes exactly one call, a GET.
    It hands back parsed data only for a response with status 200; a response
    with another status and a body that is well-formed UTF-8 becomes the error
    "HTTP <status>: <body>", and an exception of the call becomes the error
    "Request failed: <message>". *)
Theorem sap_request_outcomes `{P : Platform} (entity_name : string)
    (params : option (list (string * string))) (s : Sys) :
  let run := Intelligent.make_sap_request entity_name params s in
  (exists v, value run = Ok v) /\
  (exists out,
     trace run = [(mkRequest GET (Intelligent.request_url entity_name params) None
                     Intelligent.request_headers, out)]) /\
  self (final run) = self s /\
  (forall v, value run = Ok (Intelligent.Parsed v) ->
     exists rq r, trace run = [(rq, Ok r)] /\ status r = 200%Z) /\
  (forall rq r, trace run = [(rq, Ok r)] -> status r <> 200%Z ->
     Utf8.valid (data r) = true ->
     value run = Ok (Intelligent.ErrorDict
                       ("HTTP " +:+ PyStr.str_int (status r) +:+ ": " +:+ data r))) /\
  (forall rq msg, trace run = [(rq, Raise msg)] ->
     value run = Ok (Intelligent.ErrorDict ("Request failed: " +:+ msg))).
Proof.
  cbv zeta. rewrite make_sap_request_run. cbv zeta.
  destruct (http_request _ _) as [[r|msg] w]; cbn [value final trace self].
  - split; [eauto|]. split; [eauto|]. split; [reflexivity|]. split; [|split].
    + intros v Hv. do 2 eexists. split; [reflexivity|].
      injection Hv as Hv. destruct (decode _); [|discriminate].
      destruct (status r =? 200)%Z eqn:E; [now apply Z.eqb_eq | discriminate].
    + intros rq r' Ht Hne Hvalid. injection Ht as _ <-.
      unfold decode. rewrite Hvalid. apply Z.eqb_neq in Hne. now rewrite Hne.
    + intros rq msg Ht. discriminate.
  - split; [eauto|]. split; [eauto|]. split; [reflexivity|]. split; [|split].
    + intros v Hv. discriminate.
    + intros rq r Ht. discriminate.
    + intros rq msg' Ht. injection Ht as _ <-. reflexivity.
Qed.

Lemma sap_request_outcomes_witness :
  value (Intelligent.make_sap_request "A_SalesOrder" (Some [("top", "5")])
           (Scripted.fresh [Ok Scripted.patch_403]))
    = Ok (Intelligent.ErrorDict "HTTP 403: token expired").
Proof.
  apply (proj1 (proj2 (proj2 (proj2 (proj2
           (sap_request_outcomes "A_SalesOrder" (Some [("top", "5")])
              (Scripted.fresh [Ok Scripted.patch_403]))))))
           (mkRequest GET (Intelligent.request_url "A_SalesOrder" (Some [("top", "5")]))
              None Intelligent.request_headers)
           Scripted.patch_403).
  - vm_compute. reflexivity.
  - discriminate.
  - reflexivity.
Defined.

Lemma query_parts_loop (items : list (string * string)) (acc : list string) :
  fold_left
    (fun query_parts kv =>
       if PyStr.truthy (Some (snd kv))
       then (query_parts ++ ["$" +:+ fst kv +:+ "=" +:+ snd kv])%list
       else query_parts)
    items acc
  = (acc ++ map (fun kv => "$" +:+ fst kv +:+ "=" +:+ snd kv)
              (List.filter (fun kv => PyStr.truthy (Some (snd kv))) items))%list.
Proof.
  revert acc. induction items as [|kv items IH]; intros acc.
  - cbn. now rewrite app_nil_r.
  - cbn [fold_left List.filter]. rewrite IH.
    destruct (PyStr.truthy (Some (snd kv))); [|reflexivity].
    cbn [map]. now rewrite <- app_assoc.
Qed.

(** X16.  The query string of [make_sap_request] holds the parameters whose
    value is not empty, in the order of the dictionary, as [$key=value] joined
    by [&]; when no parameter is left the URL is the entity URL with no [?],
    otherwise the query string follows a [?]. *)
Theorem query_string_keeps_nonempty (entity_name : string)
    (params : option (list (string * string))) :
  let kept := List.filter (fun kv => PyStr.truthy (Some (snd kv))) (default [] params) in
  Intelligent.query_parts params
    = map (fun kv => "$" +:+ fst kv +:+ "=" +:+ snd kv) kept /\
  (kept = [] ->
   Intelligent.request_url entity_name params = Intelligent.base_url +:+ entity_name) /\
  (kept <> [] ->
   Intelligent.request_url entity_name params
     = Intelligent.base_url +:+ entity_name +:+ "?"
       +:+ PyStr.join "&" (Intelligent.query_parts params)).
Proof.
  cbv zeta.
  assert (E : Intelligent.query_parts params
              = map (fun kv => "$" +:+ fst kv +:+ "=" +:+ snd kv)
                  (List.filter (fun kv => PyStr.truthy (Some (snd kv)))
                     (default [] params))).
  { unfold Intelligent.query_parts. destruct params as [[|kv items]|];
      [reflexivity | | reflexivity].
    rewrite query_parts_loop. reflexivity. }
  split; [exact E|]. unfold Intelligent.request_url. cbv zeta. rewrite E. split.
  - intros ->. reflexivity.
  - intros Hne.
    destruct (List.filter _ _) as [|kv kept]; [congruence|].
    cbn [map]. unfold PyStr.join. cbn [String.concat].
    destruct (map _ kept); cbn [PyStr.truthy];
      rewrite ?append_assoc; reflexivity.
Qed.

Lemma query_string_keeps_nonempty_witness :
  Intelligent.request_url "A_SalesOrder"
    (Some [("filter", ""); ("top", "10")])
  = Intelligent.base_url +:+ "A_SalesOrder" +:+ "?" +:+ "$top=10".
Proof.
  apply (proj2 (proj2 (query_string_keeps_nonempty
                         "A_SalesOrder" (Some [("filter", ""); ("top", "10")])))).
  discriminate.
Defined.

(** * Metadata discovery *)

Module MetadataFacts.
Import Metadata.
#[local] Open Scope list_scope.

(** The loops that append one item at a time build the lists of the items in
    document order. *)
Lemma parse_properties_entities (en : option string) (props : list Element)
    (p : Parser) (ps : list PropertyInfo) (ns : list NavigationInfo)
    (E : gmap (option string) EntityInfo) :
  entities p = <[ en := mkEntity ps ns ]> E ->
  entities (fold_left (parse_property en) props p)
    = <[ en := mkEntity (ps ++ map property_of props) ns ]> E.
Proof.
  revert p ps. induction props as [|prop props IH]; intros p ps Hp.
  - cbn. now rewrite app_nil_r.
  - cbn [fold_left map]. rewrite (IH _ (ps ++ [property_of prop])).
    + now rewrite <- app_assoc.
    + unfold parse_property, append_property, set_entities. cbn [entities].
      rewrite Hp, alter_insert_eq. reflexivity.
Qed.

Lemma parse_navigations_entities (en : option string) (navs : list Element)
    (p : Parser) (ps : list PropertyInfo) (ns : list NavigationInfo)
    (E : gmap (option string) EntityInfo) :
  entities p = <[ en := mkEntity ps ns ]> E ->
  entities (fold_left (parse_navigation en) navs p)
    = <[ en := mkEntity ps (ns ++ map navigation_of navs) ]> E.
Proof.
  revert p ns. induction navs as [|nav navs IH]; intros p ns Hp.
  - cbn. now rewrite app_nil_r.
  - cbn [fold_left map]. rewrite (IH _ (ns ++ [navigation_of nav])).
    + now rewrite <- app_assoc.
    + unfold parse_navigation, append_navigation, set_nav_lookup, set_entities.
      cbn [entities]. rewrite Hp, alter_insert_eq. reflexivity.
Qed.

Lemma parse_properties_rest (en : option string) (props : list Element) (p : Parser) :
  nav_lookup (fold_left (parse_property en) props p) = nav_lookup p /\
  associations (fold_left (parse_property en) props p) = associations p /\
  metadata (fold_left (parse_property en) props p) = metadata p.
Proof.
  revert p. induction props as [|prop props IH]; intros p; [repeat split|].
  cbn [fold_left]. destruct (IH (parse_property en p prop)) as (-> & -> & ->).
  repeat split.
Qed.

Lemma parse_navigations_rest (en : option string) (navs : list Element) (p : Parser) :
  nav_lookup (fold_left (parse_navigation en) navs p)
    = index_navigations en navs (nav_lookup p) /\
  associations (fold_left (parse_navigation en) navs p) = associations p /\
  metadata (fold_left (parse_navigation en) navs p) = metadata p.
Proof.
  revert p. induction navs as [|nav navs IH]; intros p; [repeat split|].
  cbn [fold_left]. destruct (IH (parse_navigation en p nav)) as (-> & -> & ->).
  repeat split.
Qed.

Lemma parse_entity_type_entities (p : Parser) (et : Element) :
  entities (parse_entity_type p et)
    = <[ get "Name" et :=
           mkEntity (map property_of (findall "Property" et))
             (map navigation_of (findall "NavigationProperty" et)) ]> (entities p).
Proof.
  unfold parse_entity_type. cbv zeta.
  rewrite (parse_navigations_entities (get "Name" et) _ _
             (map property_of (findall "Property" et)) [] (entities p));
    [reflexivity|].
  rewrite (parse_properties_entities (get "Name" et) _ _ [] [] (entities p));
    reflexivity.
Qed.

Lemma parse_entity_type_rest (p : Parser) (et : Element) :
  nav_lookup (parse_entity_type p et)
    = index_navigations (get "Name" et) (findall "NavigationProperty" et)
        (nav_lookup p) /\
  associations (parse_entity_type p et) = associations p /\
  metadata (parse_entity_type p et) = metadata p.
Proof.
  unfold parse_entity_type. cbv zeta.
  destruct (parse_navigations_rest (get "Name" et)
              (findall "NavigationProperty" et)
              (fold_left (parse_property (get "Name" et)) (findall "Property" et)
                 (set_entities (<[ get "Name" et := mkEntity [] [] ]>) p)))
    as (-> & -> & ->).
  destruct (parse_properties_rest (get "Name" et) (findall "Property" et)
              (set_entities (<[ get "Name" et := mkEntity [] [] ]>) p))
    as (-> & -> & ->).
  repeat split.
Qed.

Lemma index_navigations_keeps (en : option string) (navs : list Element)
    (m : gmap string NavigationEntry) (k : string) :
  is_Some (m !! k) -> is_Some (index_navigations en navs m !! k).
Proof.
  unfold index_navigations. revert m.
  induction navs as [|nav navs IH]; intros m H; [exact H|].
  cbn [fold_left]. apply IH.
  destruct (decide (nav_key en (get "Name" nav) = k)) as [<-|Hne].
  - rewrite lookup_insert_eq. eauto.
  - now rewrite lookup_insert_ne.
Qed.

Lemma index_navigations_has (en : option string) (navs : list Element)
    (m : gmap string NavigationEntry) (nav : Element) :
  In nav navs ->
  is_Some (index_navigations en navs m !! nav_key en (get "Name" nav)).
Proof.
  revert m. induction navs as [|x navs IH]; intros m Hin; [destruct Hin|].
  destruct Hin as [->|Hin].
  - unfold index_navigations. cbn [fold_left].
    apply (index_navigations_keeps en navs). rewrite lookup_insert_eq. eauto.
  - unfold index_navigations in *. cbn [fold_left]. now apply IH.
Qed.

Lemma append_ends_rest (an : option string) (l : list Element) (q : Parser) :
  let q' := fold_left (fun p e => append_end an (end_of e) p) l q in
  entities q' = entities q /\ nav_lookup q' = nav_lookup q /\
  metadata q' = metadata q.
Proof.
  cbv zeta. revert q. induction l as [|e l IH]; intros q; [repeat split|].
  cbn [fold_left]. destruct (IH (append_end an (end_of e) q)) as (-> & -> & ->).
  repeat split.
Qed.

Lemma append_ends_associations (an : option string) (l : list Element) (q : Parser)
    (es : list AssociationEnd) (A : gmap (option string) AssociationInfo) :
  associations q = <[ an := mkAssociation es ]> A ->
  associations (fold_left (fun p e => append_end an (end_of e) p) l q)
    = <[ an := mkAssociation (es ++ map end_of l) ]> A.
Proof.
  revert q es. induction l as [|e l IH]; intros q es Hq.
  - cbn. now rewrite app_nil_r.
  - cbn [fold_left map]. rewrite (IH _ (es ++ [end_of e])).
    + now rewrite <- app_assoc.
    + unfold append_end, set_associations. cbn [associations].
      rewrite Hq, alter_insert_eq. reflexivity.
Qed.

Lemma parse_association_rest (p : Parser) (a : Element) :
  entities (parse_association p a) = entities p /\
  nav_lookup (parse_association p a) = nav_lookup p /\
  metadata (parse_association p a) = metadata p.
Proof.
  unfold parse_association. cbv zeta.
  exact (append_ends_rest (get "Name" a) (findall "End" a)
           (set_associations (<[ get "Name" a := mkAssociation [] ]>) p)).
Qed.

Lemma parse_association_associations (p : Parser) (a : Element) :
  associations (parse_association p a)
    = <[ get "Name" a := mkAssociation (map end_of (findall "End" a)) ]>
        (associations p).
Proof.
  unfold parse_association. cbv zeta.
  exact (append_ends_associations (get "Name" a) (findall "End" a)
           (set_associations (<[ get "Name" a := mkAssociation [] ]>) p)
           [] (associations p) eq_refl).
Qed.

Lemma parse_associations_rest (l : list Element) (p : Parser) :
  entities (fold_left parse_association l p) = entities p /\
  nav_lookup (fold_left parse_association l p) = nav_lookup p /\
  metadata (fold_left parse_association l p) = metadata p.
Proof.
  revert p. induction l as [|a l IH]; intros p; [repeat split|].
  cbn [fold_left]. destruct (IH (parse_association p a)) as (-> & -> & ->).
  apply parse_association_rest.
Qed.

(** [indexed] is kept by every step of the walk. *)
Lemma parse_entity_type_indexed (p : Parser) (et : Element) :
  indexed p -> indexed (parse_entity_type p et).
Proof.
  intros Hp en e nav He Hin.
  destruct (parse_entity_type_rest p et) as (Hn & _ & _). rewrite Hn.
  rewrite parse_entity_type_entities in He.
  destruct (decide (get "Name" et = en)) as [<-|Hne].
  - rewrite lookup_insert_eq in He. injection He as <-.
    cbn [navigation_properties] in Hin. apply in_map_iff in Hin as (x & <- & Hx).
    cbn [navigation_of nav_name].
    now apply index_navigations_has.
  - rewrite lookup_insert_ne in He by exact Hne.
    apply index_navigations_keeps. exact (Hp en e nav He Hin).
Qed.

Lemma parse_entity_types_indexed (l : list Element) (p : Parser) :
  indexed p -> indexed (fold_left parse_entity_type l p).
Proof.
  revert p. induction l as [|et l IH]; intros p Hp; [exact Hp|].
  cbn [fold_left]. apply IH. now apply parse_entity_type_indexed.
Qed.

Lemma parse_schema_indexed (schema : Element) (p : Parser) :
  indexed p -> indexed (parse_schema schema p).
Proof.
  intros Hp. unfold parse_schema. cbv zeta.
  pose proof (parse_entity_types_indexed (findall "EntityType" schema) p Hp) as H.
  intros en e nav He Hin.
  destruct (parse_associations_rest (findall "Association" schema)
              (fold_left parse_entity_type (findall "EntityType" schema) p))
    as (E1 & E2 & _).
  rewrite E1 in He. rewrite E2. exact (H en e nav He Hin).
Qed.

Lemma with_metadata_indexed (p : Parser) (text : option string) :
  indexed p ->
  indexed {| metadata := text; entities := entities p;
             associations := associations p; nav_lookup := nav_lookup p |}.
Proof. intros Hp en e nav He Hin. exact (Hp en e nav He Hin). Qed.

Lemma parse_indexed (fromstring : string -> exc Element) (p : Parser) :
  indexed p -> indexed (snd (_parse_xml_metadata fromstring p)).
Proof.
  intros Hp. unfold _parse_xml_metadata.
  destruct (metadata p); cbn [snd]; [|exact Hp].
  destruct (fromstring _); [|exact Hp].
  destruct (find_descendant _ _); [|exact Hp].
  now apply parse_schema_indexed.
Qed.

Lemma fold_entities_other (l : list Element) (p : Parser) (k : option string) :
  (forall x, In x l -> get "Name" x <> k) ->
  entities (fold_left parse_entity_type l p) !! k = entities p !! k.
Proof.
  revert p. induction l as [|et l IH]; intros p H; [reflexivity|].
  cbn [fold_left]. rewrite IH by (intros x Hx; apply H; now right).
  rewrite parse_entity_type_entities.
  apply lookup_insert_ne. apply H. now left.
Qed.

Lemma parse_schema_entities (schema : Element) (p : Parser) :
  entities (parse_schema schema p)
    = entities (fold_left parse_entity_type (findall "EntityType" schema) p).
Proof. unfold parse_schema. cbv zeta. apply parse_associations_rest. Qed.

Section Fetch.
Context `{P : Platform}.

Lemma fetch_metadata_run (fromstring : string -> exc Element) (p : Parser) (s : Sys) :
  fetch_metadata fromstring p s =
  match basic_auth (credentials (config (self s))) with
  | Raise _ => mkRun (Ok (false, p)) s []
  | Ok auth =>
      let rq := mkRequest GET (metadata_url (config (self s))) None
                  {[ "authorization" := Some auth ]} in
      match http_request (world s) rq with
      | (Raise msg, w) => mkRun (Ok (false, p)) (mkSys (self s) w) [(rq, Raise msg)]
      | (Ok r, w) =>
          mkRun
            (Ok (match decode (data r) with
                 | Raise _ => (false, p)
                 | Ok text =>
                     if (status r =? 200)%Z
                     then (true, snd (_parse_xml_metadata fromstring
                                        (with_metadata text p)))
                     else (false, p)
                 end))
            (mkSys (self s) w) [(rq, Ok r)]
      end
  end.
Proof.
  unfold fetch_metadata, try_except, bind, get_self, lift, request, ret.
  cbn [value final trace self world].
  destruct (basic_auth _) as [auth|msg]; cbn [value final trace app self world];
    [|reflexivity].
  destruct (http_request _ _) as [[r|msg] w]; cbn [value final trace app];
    [|reflexivity].
  destruct (status r =? 200)%Z; cbn [value final trace app];
    destruct (decode _); reflexivity.
Qed.

End Fetch.

(** X17.  The lookup table of navigation properties is complete: on a new
    parser, and after any parse or fetch from a parser where this held, every
    navigation property listed under an entity is found in the table under
    the key made of the entity name, a dot and the property name. *)
Theorem navigation_index_complete `{P : Platform} :
  indexed new_parser /\
  (forall fromstring p,
     indexed p -> indexed (snd (_parse_xml_metadata fromstring p))) /\
  (forall fromstring p s b p',
     indexed p ->
     value (fetch_metadata fromstring p s) = Ok (b, p') ->
     indexed p').
Proof.
  split; [|split].
  - intros en e nav He. unfold new_parser in He. cbn [entities] in He.
    rewrite lookup_empty in He. discriminate.
  - intros fromstring p. apply parse_indexed.
  - intros fromstring p s b p' Hp Hv. rewrite fetch_metadata_run in Hv.
    destruct (basic_auth _); [|injection Hv as _ <-; exact Hp].
    cbv zeta in Hv. destruct (http_request _ _) as [[r|msg] w]; cbn [value] in Hv;
      [|injection Hv as _ <-; exact Hp].
    destruct (decode _) as [text|]; [|injection Hv as _ <-; exact Hp].
    destruct (status r =? 200)%Z; injection Hv as _ <-; [|exact Hp].
    apply (parse_indexed fromstring (with_metadata text p)).
    now apply with_metadata_indexed.
Qed.

Lemma navigation_index_complete_witness :
  indexed (snd (_parse_xml_metadata sample_fromstring
                  (with_metadata "<edmx/>" new_parser))).
Proof.
  apply (proj1 (proj2 (@navigation_index_complete Scripted.platform))).
  apply with_metadata_indexed.
  apply (proj1 (@navigation_index_complete Scripted.platform)).
Defined.

(** X18.  After the walk of a schema, the entry of an entity name lists the
    properties and the navigation properties of the last [EntityType] element
    with that name, each list in document order. *)
Theorem entity_listed_in_document_order (schema et : Element) (l1 l2 : list Element)
    (p : Parser) (name : string) :
  findall "EntityType" schema = l1 ++ et :: l2 ->
  (forall x, In x l2 -> get "Name" x <> get "Name" et) ->
  get "Name" et = Some name ->
  get_entity_properties (parse_schema schema p) name
    = map property_of (findall "Property" et) /\
  get_navigation_properties_for_entity (parse_schema schema p) name
    = map navigation_of (findall "NavigationProperty" et).
Proof.
  intros Hl Hlast Hname.
  unfold get_entity_properties, get_navigation_properties_for_entity.
  rewrite parse_schema_entities, Hl, fold_left_app. cbn [fold_left].
  rewrite fold_entities_other by (rewrite <- Hname; exact Hlast).
  rewrite parse_entity_type_entities, <- Hname, lookup_insert_eq.
  split; reflexivity.
Qed.

Lemma entity_listed_in_document_order_witness :
  get_navigation_properties_for_entity (parse_schema sample_schema new_parser)
    "A_SalesOrderType"
  = [mkNavigation (Some "to_Item") (Some "API.assoc_item") (Some "ToRole_item")].
Proof.
  apply (entity_listed_in_document_order sample_schema
           (Elem (qname "EntityType") [("Name", "A_SalesOrderType")]
              [ Elem (qname "Property")
                  [("Name", "SalesOrder"); ("Type", "Edm.String")] [];
                Elem (qname "NavigationProperty")
                  [("Name", "to_Item"); ("Relationship", "API.assoc_item");
                   ("ToRole", "ToRole_item")] [] ])
           [] [] new_parser "A_SalesOrderType").
  - reflexivity.
  - intros x [].
  - reflexivity.
Defined.

(** X19.  For a name that no [EntityType] of the schema carries and that was
    not known before, both accessors return the empty list. *)
Theorem unknown_entity_is_empty (schema : Element) (p : Parser) (name : string) :
  entities p !! Some name = None ->
  (forall et, In et (findall "EntityType" schema) -> get "Name" et <> Some name) ->
  get_navigation_properties_for_entity (parse_schema schema p) name = [] /\
  get_entity_properties (parse_schema schema p) name = [].
Proof.
  intros Hp Hnone.
  unfold get_entity_properties, get_navigation_properties_for_entity.
  rewrite parse_schema_entities, (fold_entities_other _ p (Some name) Hnone), Hp.
  split; reflexivity.
Qed.

Lemma unknown_entity_is_empty_witness :
  get_navigation_properties_for_entity (parse_schema sample_schema new_parser)
    "A_SalesOrder" = [].
Proof.
  apply (unknown_entity_is_empty sample_schema new_parser "A_SalesOrder").
  - reflexivity.
  - intros et [<-|[]]. discriminate.
Defined.

(** X20.  [fetch_metadata] never raises and makes at most one call, a GET of
    [$metadata] that carries the authorization header and no other.  It
    returns [True] exactly when the call is answered with status 200 and a
    body that is well-formed UTF-8; otherwise the parser is as it was. *)
Theorem fetch_metadata_outcome `{P : Platform} (fromstring : string -> exc Element)
    (p : Parser) (s : Sys) :
  let run := fetch_metadata fromstring p s in
  exists b p',
    value run = Ok (b, p') /\
    self (final run) = self s /\
    length (trace run) <= 1 /\
    (forall e, In e (trace run) ->
       method (fst e) = GET /\
       url (fst e) = metadata_url (config (self s)) /\
       exists auth, req_headers (fst e) = {[ "authorization" := Some auth ]}) /\
    (b = true <->
     exists rq r, trace run = [(rq, Ok r)] /\ status r = 200%Z /\
                  Utf8.valid (data r) = true) /\
    (b = false -> p' = p).
Proof.
  cbv zeta. rewrite fetch_metadata_run.
  destruct (basic_auth _) as [auth|msg].
  - cbv zeta. destruct (http_request _ _) as [[r|msg] w]; cbn [value final trace self].
    + unfold decode. destruct (Utf8.valid (data r)) eqn:Hvalid.
      * destruct (status r =? 200)%Z eqn:E200.
        -- do 2 eexists. split; [reflexivity|]. split; [reflexivity|].
           split; [cbn; lia|]. split; [|split].
           ++ intros e [<-|[]]. cbn [fst method url req_headers]. eauto.
           ++ split; [|reflexivity]. intros _. do 2 eexists.
              split; [reflexivity|]. split; [now apply Z.eqb_eq | exact Hvalid].
           ++ discriminate.
        -- do 2 eexists. split; [reflexivity|]. split; [reflexivity|].
           split; [cbn; lia|]. split; [|split].
           ++ intros e [<-|[]]. cbn [fst method url req_headers]. eauto.
           ++ split; [discriminate|]. intros (rq & r' & Ht & Hs & _).
              injection Ht as _ <-. apply Z.eqb_neq in E200. contradiction.
           ++ reflexivity.
      * do 2 eexists. split; [reflexivity|]. split; [reflexivity|].
        split; [cbn; lia|]. split; [|split].
        -- intros e [<-|[]]. cbn [fst method url req_headers]. eauto.
        -- split; [discriminate|]. intros (rq & r' & Ht & _ & Hv).
           injection Ht as _ <-. congruence.
        -- reflexivity.
    + do 2 eexists. split; [reflexivity|]. split; [reflexivity|].
      split; [cbn; lia|]. split; [|split].
      * intros e [<-|[]]. cbn [fst method url req_headers]. eauto.
      * split; [discriminate|]. intros (rq & r' & Ht & _). discriminate.
      * reflexivity.
  - cbn [value final trace]. do 2 eexists. split; [reflexivity|].
    split; [reflexivity|]. split; [cbn; lia|]. split; [|split].
    + intros e [].
    + split; [discriminate|]. intros (rq & r' & Ht & _). discriminate.
    + reflexivity.
Qed.

Lemma fetch_metadata_outcome_witness :
  exists p',
    value (fetch_metadata sample_fromstring new_parser
             (Scripted.fresh [Ok (mkResponse 200 [] "<edmx/>")]))
      = Ok (true, p').
Proof.
  destruct (fetch_metadata_outcome sample_fromstring new_parser
              (Scripted.fresh [Ok (mkResponse 200 [] "<edmx/>")]))
    as (b & p' & Hv & _ & _ & _ & Hb & _).
  assert (E : b = true).
  { apply Hb. do 2 eexists. split; [vm_compute; reflexivity|].
    split; reflexivity. }
  subst b. exists p'. exact Hv.
Defined.

(** X21.  A response with status 200 whose body is not XML, or is XML
    without a schema element, still makes [fetch_metadata] return [True]: the
    text is stored and the tables are left as they were. *)
Theorem unparsable_metadata_accepted `{P : Platform}
    (fromstring : string -> exc Element) (p : Parser) (s : Sys)
    (rq : Request) (r : Response) :
  trace (fetch_metadata fromstring p s) = [(rq, Ok r)] ->
  status r = 200%Z ->
  Utf8.valid (data r) = true ->
  (match fromstring (data r) with
   | Raise _ => True
   | Ok root => find_descendant "Schema" root = None
   end) ->
  value (fetch_metadata fromstring p s) = Ok (true, with_metadata (data r) p).
Proof.
  intros Ht Hs Hvalid Hx. revert Ht. rewrite fetch_metadata_run.
  destruct (basic_auth _) as [auth|msg]; [|discriminate].
  cbv zeta. destruct (http_request _ _) as [[r'|msg] w]; [|discriminate].
  cbn [trace value]. intros Ht. injection Ht as _ ->.
  unfold decode. rewrite Hvalid. apply Z.eqb_eq in Hs. rewrite Hs.
  unfold _parse_xml_metadata. cbn [metadata with_metadata snd].
  destruct (fromstring (data r)) as [root|msg]; [|reflexivity].
  now rewrite Hx.
Qed.

Lemma unparsable_metadata_accepted_witness :
  value (fetch_metadata sample_fromstring new_parser
           (Scripted.fresh [Ok Scripted.read_stamped]))
    = Ok (true, with_metadata "{}" new_parser).
Proof.
  apply (unparsable_metadata_accepted sample_fromstring new_parser
           (Scripted.fresh [Ok Scripted.read_stamped])
           (mkRequest GET (metadata_url Scripted.cfg) None
              {[ "authorization" := Some "Basic ACCAPI:secret" ]})
           Scripted.read_stamped).
  - vm_compute. reflexivity.
  - reflexivity.
  - reflexivity.
  - exact I.
Defined.

Lemma grows_refl (p : Parser) : grows p p.
Proof. repeat split; auto. Qed.

Lemma grows_trans (p q r : Parser) : grows p q -> grows q r -> grows p r.
Proof. intros (A & B & C) (A' & B' & C'). repeat split; auto. Qed.

Lemma is_Some_insert {K V} `{Countable K} (m : gmap K V) (i k : K) (v : V) :
  is_Some (m !! k) -> is_Some (<[ i := v ]> m !! k).
Proof.
  intros Hk. destruct (decide (i = k)) as [->|Hne].
  - rewrite lookup_insert_eq. eauto.
  - now rewrite lookup_insert_ne.
Qed.

Lemma parse_entity_type_grows (p : Parser) (et : Element) :
  grows p (parse_entity_type p et).
Proof.
  destruct (parse_entity_type_rest p et) as (Hn & Ha & _).
  split; [|split].
  - intros k Hk. rewrite parse_entity_type_entities. now apply is_Some_insert.
  - intros k Hk. now rewrite Ha.
  - intros k Hk. rewrite Hn. now apply index_navigations_keeps.
Qed.

Lemma parse_association_grows (p : Parser) (a : Element) :
  grows p (parse_association p a).
Proof.
  destruct (parse_association_rest p a) as (He & Hn & _).
  split; [|split].
  - intros k Hk. now rewrite He.
  - intros k Hk. rewrite parse_association_associations. now apply is_Some_insert.
  - intros k Hk. now rewrite Hn.
Qed.

Lemma fold_grows (f : Parser -> Element -> Parser) (l : list Element) (p : Parser) :
  (forall q x, grows q (f q x)) -> grows p (fold_left f l p).
Proof.
  intros Hf. revert p. induction l as [|x l IH]; intros p; [apply grows_refl|].
  cbn [fold_left]. eapply grows_trans; [apply Hf | apply IH].
Qed.

(** X22.  Parsing never forgets: every entity, association and navigation key
    known before a parse is still known after it, so what an earlier document
    declared and a later one does not stays in the tables. *)
Theorem tables_only_grow (fromstring : string -> exc Element) (p : Parser) :
  grows p (snd (_parse_xml_metadata fromstring p)) /\
  (forall text,
     grows p (snd (_parse_xml_metadata fromstring (with_metadata text p)))).
Proof.
  assert (H : forall q, grows q (snd (_parse_xml_metadata fromstring q))).
  { intros q. unfold _parse_xml_metadata.
    destruct (metadata q); cbn [snd]; [|apply grows_refl].
    destruct (fromstring _); [|apply grows_refl].
    destruct (find_descendant _ _); [|apply grows_refl].
    unfold parse_schema. cbv zeta.
    eapply grows_trans; apply fold_grows;
      [apply parse_entity_type_grows | apply parse_association_grows]. }
  split; [apply H|]. intros text.
  apply (grows_trans p (with_metadata text p)); [|apply H].
  repeat split; auto.
Qed.

End MetadataFacts.

(** * The order id *)

Lemma all_append (f : ascii -> bool) (u v : string) :
  Chars.all f (u +:+ v) = Chars.all f u && Chars.all f v.
Proof.
  induction u as [|c u IH]; [reflexivity|].
  rewrite append_cons. cbn [Chars.all]. now rewrite IH, andb_assoc.
Qed.

Lemma lstrip_space (s : string) : PyStr.lstrip (" " +:+ s) = PyStr.lstrip s.
Proof. destruct s; reflexivity. Qed.

Lemma rstrip_padded (s : string) :
  Chars.spaceless s = true -> PyStr.rstrip (s +:+ " ") = s.
Proof.
  induction s as [|c s IH]; [reflexivity|].
  unfold Chars.spaceless. cbn [Chars.all]. intros H.
  apply andb_prop in H as [Hc Hs]. apply negb_true_iff in Hc.
  rewrite append_cons. cbn [PyStr.rstrip]. unfold PyStr.isspace_all.
  rewrite (lstrip_no_lead c (s +:+ " ") Hc). now rewrite (IH Hs).
Qed.

(** Blanks around text without whitespace are stripped and nothing else. *)
Lemma strip_padded (s : string) :
  Chars.spaceless s = true -> PyStr.strip (" " +:+ s +:+ " ") = s.
Proof.
  intros H. unfold PyStr.strip. rewrite lstrip_space.
  destruct s as [|c r]; [reflexivity|].
  assert (Hc : Chars.is_space_lead c = false).
  { unfold Chars.spaceless in H. cbn [Chars.all] in H.
    apply andb_prop in H as [Hc _]. now apply negb_true_iff in Hc. }
  rewrite append_cons, (lstrip_no_lead c (r +:+ " ") Hc), <- append_cons.
  now apply rstrip_padded.
Qed.

(** The URL of an order determines its key. *)
Lemma order_url_inj (cfg : SAPConfig) (k1 k2 : string) :
  order_url cfg k1 = order_url cfg k2 -> k1 = k2.
Proof.
  unfold order_url. rewrite ?append_assoc. intros E.
  do 3 apply append_cancel_l in E. now apply append_cancel_r in E.
Qed.

(** C10.  [read_sales_order] and [remove_delivery_block] address the order by
    the cleaned id, the id with every occurrence of [SO] removed and the
    surrounding whitespace stripped.  Once the credentials encode, the read
    method sends exactly one GET, for the order with the cleaned id; once the
    token is acquired, the update sends its GET for the order with the cleaned
    id and, after an answer with status 200, its PATCH for that same order;
    no request of either method is for anything but the cleaned id, and a URL
    determines the key.  For a number [d], the ids [SO] followed by [d], [d]
    between blanks and [d] itself all give [d]; [SO4353], [ 4353 ] and [4353]
    give [4353].  Cleaning splits the id at any occurrence of [SO], so an id
    that holds [SO] anywhere is never used as given. *)
Theorem order_id_normalized `{P : Platform} :
  (forall order_id s auth,
     basic_auth (credentials (config (self s))) = Ok auth ->
     exists rq out,
       trace (read_sales_order order_id s) = [(rq, out)] /\
       method rq = GET /\
       url rq = order_url (config (self s)) (clean_order_id order_id)
                +:+ "?$expand=to_Item&$format=json") /\
  (forall order_id reason s,
     value (get_csrf_token s) = Ok true ->
     exists e1 rq2 out2 rest,
       trace (remove_delivery_block order_id reason s) = e1 :: (rq2, out2) :: rest /\
       method rq2 = GET /\
       url rq2 = order_url (config (self s)) (clean_order_id order_id)
                 +:+ "?$format=json" /\
       (forall r2, out2 = Ok r2 -> status r2 = 200%Z ->
          exists rq3 out3,
            rest = [(rq3, out3)] /\ method rq3 = PATCH /\
            url rq3 = order_url (config (self s)) (clean_order_id order_id))) /\
  (forall order_id s e,
     In e (trace (read_sales_order order_id s)) ->
     url (fst e)
       = order_url (config (self s)) (clean_order_id order_id)
         +:+ "?$expand=to_Item&$format=json") /\
  (forall order_id reason s e1 e2 rest,
     trace (remove_delivery_block order_id reason s) = e1 :: e2 :: rest ->
     url (fst e2)
       = order_url (config (self s)) (clean_order_id order_id) +:+ "?$format=json" /\
     forall e3, In e3 rest ->
       url (fst e3) = order_url (config (self s)) (clean_order_id order_id)) /\
  (forall cfg k1 k2, order_url cfg k1 = order_url cfg k2 -> k1 = k2) /\
  (forall d,
     Chars.all Chars.is_digit d = true ->
     clean_order_id ("SO" +:+ d) = d /\
     clean_order_id (" " +:+ d +:+ " ") = d /\
     clean_order_id d = d) /\
  clean_order_id "SO4353" = "4353" /\
  clean_order_id " 4353 " = "4353" /\
  clean_order_id "4353" = "4353" /\
  (forall u v,
     clean_order_id (u +:+ "SO" +:+ v)
       = PyStr.strip (PyStr.replace "SO" "" u +:+ PyStr.replace "SO" "" v)) /\
  (forall u v, clean_order_id (u +:+ "SO" +:+ v) <> u +:+ "SO" +:+ v).
Proof.
  split; [|split; [|split; [|split; [|split; [|split;
    [|split; [|split; [|split; [|split]]]]]]]]].
  - intros order_id s auth EA. rewrite read_sales_order_run, EA. cbv zeta.
    destruct (http_request _ _) as [[r|msg] w]; do 2 eexists;
      (split; [reflexivity|]); split; reflexivity.
  - intros order_id reason s Hv.
    pose proof (update_spec order_id reason s) as U.
    remember (remove_delivery_block order_id reason s) as run eqn:Erun.
    destruct U as [t T Hf | auth r1 w1 msg w2 H | auth r1 w1 r2 w2 H E2 Hne
                  | auth r1 w1 r2 w2 msg w3 H E2 H200 E3
                  | auth r1 w1 r2 w2 r3 w3 H E2 H200 E3]; cbn [trace].
    + rewrite (token_run_unique s t T) in Hv. congruence.
    + do 4 eexists. split; [reflexivity|]. split; [reflexivity|].
      split; [reflexivity|]. intros r2 E. discriminate.
    + do 4 eexists. split; [reflexivity|]. split; [reflexivity|].
      split; [reflexivity|]. intros r2' E Hs. injection E as <-. contradiction.
    + do 4 eexists. split; [reflexivity|]. split; [reflexivity|].
      split; [reflexivity|]. intros r2' E Hs. do 2 eexists.
      split; [reflexivity|]. split; reflexivity.
    + do 4 eexists. split; [reflexivity|]. split; [reflexivity|].
      split; [reflexivity|]. intros r2' E Hs. do 2 eexists.
      split; [reflexivity|]. split; reflexivity.
  - intros order_id s e. rewrite read_sales_order_run.
    destruct (basic_auth _); [|intros []].
    cbv zeta. destruct (http_request _ _) as [[r|msg] w];
      intros [<-|[]]; reflexivity.
  - intros order_id reason s e1 e2 rest Ht.
    pose proof (update_spec order_id reason s) as U.
    remember (remove_delivery_block order_id reason s) as run eqn:Erun.
    destruct U as [t T Hv | auth r1 w1 msg w2 H | auth r1 w1 r2 w2 H E2 Hne
                  | auth r1 w1 r2 w2 msg w3 H E2 H200 E3
                  | auth r1 w1 r2 w2 r3 w3 H E2 H200 E3]; cbn [trace] in Ht.
    + destruct (token_run_trace s t T) as [E | (auth & o & E)];
        rewrite E in Ht; discriminate.
    + injection Ht as _ <- <-. split; [reflexivity | intros e3 []].
    + injection Ht as _ <- <-. split; [reflexivity | intros e3 []].
    + injection Ht as _ <- <-. split; [reflexivity|].
      intros e3 [<-|[]]. reflexivity.
    + injection Ht as _ <- <-. split; [reflexivity|].
      intros e3 [<-|[]]. reflexivity.
  - apply order_url_inj.
  - intros d Hd.
    assert (HS : Chars.all (fun c => negb (Ascii.eqb c "S")) d = true)
      by (apply (all_impl Chars.is_digit); [apply digit_inert | exact Hd]).
    assert (Hsp : Chars.spaceless d = true)
      by (apply (all_impl Chars.is_digit); [apply digit_inert | exact Hd]).
    unfold clean_order_id. split; [|split].
    + change ("SO" +:+ d) with (String "S" (String "O" d)).
      rewrite replace_SO_step. cbn [PyStr.starts_with]. rewrite !Ascii.eqb_refl.
      cbn [andb]. rewrite (replace_SO_without_S d HS). now apply strip_spaceless.
    + rewrite replace_SO_without_S; [now apply strip_padded|].
      rewrite !all_append, HS. reflexivity.
    + rewrite (replace_SO_without_S d HS). now apply strip_spaceless.
  - vm_compute. reflexivity.
  - vm_compute. reflexivity.
  - vm_compute. reflexivity.
  - intros u v. unfold clean_order_id. now rewrite replace_SO_app.
  - intros u v E.
    assert (L : String.length (clean_order_id (u +:+ "SO" +:+ v))
                <= String.length u + String.length v).
    { unfold clean_order_id. rewrite replace_SO_app.
      pose proof (strip_length (PyStr.replace "SO" "" u +:+ PyStr.replace "SO" "" v)).
      rewrite length_append in H.
      pose proof (replace_SO_length u). pose proof (replace_SO_length v). lia. }
    rewrite E, !length_append in L. cbn [String.length] in L. lia.
Qed.

Lemma order_id_normalized_witness :
  (exists rq out,
     trace (read_sales_order "SO4353" (Scripted.fresh [Ok Scripted.read_stamped]))
       = [(rq, out)] /\
     url rq = order_url Scripted.cfg "4353" +:+ "?$expand=to_Item&$format=json") /\
  (exists e1 rq2 rq3 out3,
     trace (remove_delivery_block " SO4353 " "approved" Scenario.happy)
       = [e1; (rq2, Ok Scripted.read_stamped); (rq3, out3)] /\
     url rq2 = order_url Scripted.cfg "4353" +:+ "?$format=json" /\
     method rq3 = PATCH /\
     url rq3 = order_url Scripted.cfg "4353").
Proof.
  split.
  - destruct (proj1 (@order_id_normalized Scripted.platform) "SO4353"
                (Scripted.fresh [Ok Scripted.read_stamped]) "Basic ACCAPI:secret"
                eq_refl) as (rq & out & Ht & _ & Hu).
    exists rq, out. split; [exact Ht | exact Hu].
  - destruct (proj1 (proj2 (@order_id_normalized Scripted.platform)) " SO4353 "
                "approved" Scenario.happy) as (e1 & rq2 & out2 & rest & Ht & _ & Hu & Hp).
    + vm_compute. reflexivity.
    + assert (Eo : out2 = Ok Scripted.read_stamped).
      { revert Ht. vm_compute. intros Ht. injection Ht as _ _ <- _. reflexivity. }
      destruct (Hp Scripted.read_stamped Eo eq_refl) as (rq3 & out3 & -> & Hm & Hu3).
      exists e1, rq2, rq3, out3. subst out2.
      split; [exact Ht|]. split; [exact Hu|]. split; [exact Hm | exact Hu3].
Defined.
